(** * Flipkart price alert bot: a shallow embedding of [flipkart_price_alert.py]

    The JSON document [product_alerts.json] maps a Telegram user id to the
    ordered list of that user's alerts.  Python dicts keep insertion order,
    so the document is modelled as an association list.  Alerts are records
    with the fixed key set written by [add_product].

    Network and HTML access are the environment: [get_product_details] is
    modelled over the outcome of the HTTP request and the results of the
    three CSS selector lookups, and the scan cycle [check_all_prices] takes
    the fetcher, the Telegram delivery outcome and the outcome of the file
    write as parameters.  The Unicode database of the interpreter, which
    [str.strip], [str.isdigit] and [int] consult, is a parameter too. *)

From Stdlib Require Import String Ascii ZArith List Bool Lia.
Import ListNotations.
Open Scope Z_scope.

(** ** Data model

    A Python [str] is modelled by its UTF-8 encoding, a [string] of bytes
    (a lone surrogate encoded as by the ["surrogatepass"] error handler).
    In UTF-8 a byte below 128 only ever stands for that ASCII character, so
    [==], [in] with an ASCII pattern, the search [pid=([^&]+)] and [str(n)]
    give the same answers on the encodings as on the code points; the
    Unicode-aware [str.strip], [str.isdigit] and [int] decode first. *)

(** One alert, as built by [add_product]; [aid] is the ['id'] key. *)
Record alert := mkAlert {
  aid : string;
  name : string;
  url : string;
  current_price : Z;
  target_price : Z;
  added_on : Z
}.

(** The dict returned by [get_product_details]. *)
Record product_details := mkDetails {
  pd_name : string;
  pd_price : Z;
  pd_url : string;
  pd_image : option string
}.

(** The whole document: user id -> list of alerts, in insertion order. *)
Definition products := list (string * list alert).

(** [products.get(user_id)] *)
Fixpoint lookup (user_id : string) (ps : products) : option (list alert) :=
  match ps with
  | [] => None
  | (u, l) :: r => if String.eqb u user_id then Some l else lookup user_id r
  end.

(** [products[user_id] = l]: replaces the value in place, or appends a new
    key at the end when it is absent. *)
Fixpoint set_user (user_id : string) (l : list alert) (ps : products) : products :=
  match ps with
  | [] => [(user_id, l)]
  | (u, l0) :: r =>
      if String.eqb u user_id then (u, l) :: r else (u, l0) :: set_user user_id l r
  end.

(** ** Text: UTF-8 and code points *)

Definition byte (b : ascii) : Z := Z.of_nat (nat_of_ascii b).

Definition ascii_of_Z (n : Z) : ascii := ascii_of_nat (Z.to_nat n).

(** A continuation byte [10xxxxxx]. *)
Definition cont (b : ascii) : bool := (128 <=? byte b) && (byte b <? 192).

(** The code points of a UTF-8 text.  Only well-formed encodings stand for
    Python strings; elsewhere a byte that does not start a complete
    sequence is read as the code point of its own value. *)
Fixpoint utf8_decode (s : string) : list Z :=
  match s with
  | EmptyString => []
  | String b1 r1 =>
      let x := byte b1 in
      if x <? 192 then x :: utf8_decode r1 else
      match r1 with
      | EmptyString => x :: utf8_decode r1
      | String b2 r2 =>
          if negb (cont b2) then x :: utf8_decode r1 else
          if x <? 224 then ((x - 192) * 64 + (byte b2 - 128)) :: utf8_decode r2 else
          match r2 with
          | EmptyString => x :: utf8_decode r1
          | String b3 r3 =>
              if negb (cont b3) then x :: utf8_decode r1 else
              if x <? 240 then
                (((x - 224) * 64 + (byte b2 - 128)) * 64 + (byte b3 - 128)) :: utf8_decode r3
              else
              match r3 with
              | EmptyString => x :: utf8_decode r1
              | String b4 r4 =>
                  if negb (cont b4) then x :: utf8_decode r1 else
                  ((((x - 240) * 64 + (byte b2 - 128)) * 64 + (byte b3 - 128)) * 64
                     + (byte b4 - 128)) :: utf8_decode r4
              end
          end
      end
  end.

(** The UTF-8 encoding of one code point. *)
Definition utf8_char (c : Z) : string :=
  if c <? 128 then String (ascii_of_Z c) EmptyString
  else if c <? 2048 then
    String (ascii_of_Z (192 + c / 64)) (String (ascii_of_Z (128 + c mod 64)) EmptyString)
  else if c <? 65536 then
    String (ascii_of_Z (224 + c / 4096))
      (String (ascii_of_Z (128 + (c / 64) mod 64))
         (String (ascii_of_Z (128 + c mod 64)) EmptyString))
  else
    String (ascii_of_Z (240 + c / 262144))
      (String (ascii_of_Z (128 + (c / 4096) mod 64))
         (String (ascii_of_Z (128 + (c / 64) mod 64))
            (String (ascii_of_Z (128 + c mod 64)) EmptyString))).

Fixpoint utf8_encode (l : list Z) : string :=
  match l with
  | [] => EmptyString
  | c :: r => (utf8_char c ++ utf8_encode r)%string
  end.

(** ** The interpreter's character database

    [str.strip], [str.isdigit] and [int] consult the Unicode database
    compiled into the interpreter; the program does not fix its version,
    so it is a parameter of the functions that use it, together with the
    limit set by [sys.set_int_max_str_digits]. *)
Record interp := mkInterp {
  py_isspace : Z -> bool;        (* Py_UNICODE_ISSPACE, as in str.isspace *)
  py_isdigit : Z -> bool;        (* Py_UNICODE_ISDIGIT, as in str.isdigit *)
  py_todecimal : Z -> option Z;  (* Py_UNICODE_TODECIMAL; None for -1 *)
  max_str_digits : nat           (* 0 when there is no limit *)
}.

(** What every version of the database says: the classes of the ASCII
    characters, that a decimal digit is a digit with a value from 0 to 9,
    and that whitespace is never a digit. *)
Record interp_ok (I : interp) : Prop := {
  ok_ascii_space : forall c, 0 <= c < 128 ->
    py_isspace I c = ((9 <=? c) && (c <=? 13)) || ((28 <=? c) && (c <=? 32));
  ok_ascii_digit : forall c, 0 <= c < 128 -> py_isdigit I c = (48 <=? c) && (c <=? 57);
  ok_ascii_decimal : forall c, 0 <= c < 128 ->
    py_todecimal I c = if (48 <=? c) && (c <=? 57) then Some (c - 48) else None;
  ok_decimal : forall c d, py_todecimal I c = Some d -> 0 <= d <= 9 /\ py_isdigit I c = true;
  ok_space_not_digit : forall c, py_isspace I c = true -> py_isdigit I c = false
}.

Fixpoint lstrip_ws (I : interp) (l : list Z) : list Z :=
  match l with
  | [] => []
  | c :: r => if py_isspace I c then lstrip_ws I r else l
  end.

(** [str.strip()] *)
Definition str_strip (I : interp) (l : list Z) : list Z :=
  rev (lstrip_ws I (rev (lstrip_ws I l))).

(** ** [int] *)

(** [Py_ISSPACE]: the ASCII whitespace skipped by [PyLong_FromString]. *)
Definition c_isspace (c : ascii) : bool :=
  match nat_of_ascii c with
  | 32 | 9 | 10 | 11 | 12 | 13 => true
  | _ => false
  end%nat.

Fixpoint c_lstrip (s : string) : string :=
  match s with
  | EmptyString => EmptyString
  | String c r => if c_isspace c then c_lstrip r else s
  end.

Fixpoint rev_str (s : string) : string :=
  match s with
  | EmptyString => EmptyString
  | String c r => (rev_str r ++ String c EmptyString)%string
  end.

Definition c_strip (s : string) : string := rev_str (c_lstrip (rev_str (c_lstrip s))).

(** The characters [PyLong_FromString] reads as digits in base 10. *)
Definition c_isdigit (c : ascii) : bool :=
  let n := nat_of_ascii c in ((48 <=? n) && (n <=? 57))%nat.

Definition digit_value (c : ascii) : Z := Z.of_nat (nat_of_ascii c) - 48.

(** Digits with single underscores between them; [prev_us] is [true] at
    the start, where an underscore is refused as after another one. *)
Fixpoint parse_digits (prev_us : bool) (acc : Z) (s : string) : option Z :=
  match s with
  | EmptyString => if prev_us then None else Some acc
  | String c r =>
      if c_isdigit c then parse_digits false (acc * 10 + digit_value c) r
      else if Ascii.eqb c "_"%char then (if prev_us then None else parse_digits true acc r)
      else None
  end.

Fixpoint count_digits (s : string) : nat :=
  match s with
  | EmptyString => 0%nat
  | String c r => if c_isdigit c then S (count_digits r) else count_digits r
  end.

(** [PyLong_FromString(s, &end, 10)] where the whole ASCII text must be
    read: surrounding whitespace, an optional sign, digits with single
    underscores between them; more digits than the limit (when there are
    more than 640 and a limit is set) raise [ValueError]. *)
Definition long_from_string (max_digits : nat) (s : string) : option Z :=
  match c_strip s with
  | EmptyString => None
  | String c r =>
      let '(sign, body) :=
        if Ascii.eqb c "-"%char then (-1, r)
        else if Ascii.eqb c "+"%char then (1, r)
        else (1, String c r) in
      match parse_digits true 0 body with
      | None => None
      | Some v =>
          let digits := count_digits body in
          if ((640 <? digits) && (0 <? max_digits) && (max_digits <? digits))%nat
          then None else Some (sign * v)
      end
  end.

Definition ascii_of_codes (l : list Z) : string :=
  fold_right (fun c s => String (ascii_of_Z c) s) EmptyString l.

(** [_PyUnicode_TransformDecimalAndSpaceToASCII] on a text with a
    non-ASCII character: characters below 127 are kept, whitespace becomes
    a space, a decimal digit its ASCII digit, and the first other
    character becomes ['?'], where the text is cut. *)
Fixpoint to_ascii_decimal (I : interp) (l : list Z) : string :=
  match l with
  | [] => EmptyString
  | c :: r =>
      if c <? 127 then String (ascii_of_Z c) (to_ascii_decimal I r)
      else if py_isspace I c then String " "%char (to_ascii_decimal I r)
      else match py_todecimal I c with
           | Some d => String (ascii_of_Z (48 + d)) (to_ascii_decimal I r)
           | None => String "?"%char EmptyString
           end
  end.

(** [int(s)] in base 10 ([PyLong_FromUnicodeObject]): an ASCII text is
    read as it is, another one after its translation to ASCII.  [None] is
    the [ValueError]. *)
Definition py_int (I : interp) (l : list Z) : option Z :=
  long_from_string (max_str_digits I)
    (if forallb (fun c => c <? 128) l then ascii_of_codes l else to_ascii_decimal I l).

(** [int(s)] on a command argument. *)
Definition parse_int (I : interp) (s : string) : option Z := py_int I (utf8_decode s).

(** ** [get_product_details] *)

(** What the fetcher sees of a product page: the text of the first element
    matched by each selector ([None] when [select_one] finds nothing), and
    for [img._396cs4] whether it has a [src] attribute. *)
Record page := mkPage {
  sel_name : option string;          (* span.B_NuCI *)
  sel_name_h1 : option string;       (* h1 span *)
  sel_price : option string;         (* div._30jeq3._16Jk6d *)
  sel_img : option (option string)   (* img._396cs4, and its src *)
}.

(** [response] is [None] when [requests.get] or [raise_for_status] raises.
    Every exception inside the [try] yields [None]; in particular a missing
    [src] on the image ([KeyError]) and a price text whose digits [int]
    refuses ([ValueError]). *)
Definition get_product_details (I : interp) (u : string) (response : option page)
  : option product_details :=
  match response with
  | None => None
  | Some soup =>
      let product_name :=
        match sel_name soup with Some t => Some t | None => sel_name_h1 soup end in
      match sel_price soup, product_name with
      | Some price_text, Some name_text =>
          let price_text := str_strip I (utf8_decode price_text) in
          match py_int I (filter (py_isdigit I) price_text) with
          | None => None
          | Some price =>
              match sel_img soup with
              | Some None => None
              | img =>
                  Some {| pd_name := utf8_encode (str_strip I (utf8_decode name_text));
                          pd_price := price;
                          pd_url := u;
                          pd_image := match img with Some (Some s) => Some s | _ => None end |}
              end
          end
      | _, _ => None
      end
  end.

(** ** Alert ids *)

(** The first non-empty run of characters other than ['&'] starting at the
    rest of the string. *)
Fixpoint take_until_amp (s : string) : string :=
  match s with
  | EmptyString => EmptyString
  | String c r => if Ascii.eqb c "&"%char then EmptyString else String c (take_until_amp r)
  end.

(** [re.search(r'pid=([^&]+)', url)]: the leftmost position where the
    pattern matches, and its group 1 (a maximal run of non-['&']). *)
Fixpoint extract_product_id (s : string) : option string :=
  match s with
  | EmptyString => None
  | String _ r =>
      if String.prefix "pid=" s then
        match take_until_amp (substring 4 (String.length s) s) with
        | EmptyString => extract_product_id r
        | g => Some g
        end
      else extract_product_id r
  end.

Fixpoint nat_digits (fuel n : nat) (acc : string) : string :=
  match fuel with
  | O => acc
  | S f =>
      let acc' := String (ascii_of_nat (48 + n mod 10)) acc in
      if (n <? 10)%nat then acc' else nat_digits f (n / 10) acc'
  end.

(** [str(n)] for a natural number. *)
Definition string_of_nat (n : nat) : string := nat_digits (S n) n EmptyString.

(** ** Command handlers *)

(** ['flipkart.com' in url] *)
Definition contains (pat s : string) : bool :=
  match String.index 0 pat s with Some _ => true | None => false end.

Inductive add_reply :=
| AddUsage
| AddInvalidPrice
| AddInvalidUrl
| AddFetchFailed
| AddAdded (product : string) (current target : Z).

(** [add_product]: [ps] is the document loaded by [load_products()], [fetch]
    stands for [get_product_details] and [now] for [time.time()].  The
    second component is the document written by [save_products], if any. *)
Definition add_product (I : interp) (ps : products) (user_id : string) (args : list string)
    (fetch : string -> option product_details) (now : Z) : add_reply * option products :=
  match args with
  | u :: tp :: _ =>
      match parse_int I tp with
      | None => (AddInvalidPrice, None)
      | Some target =>
          if negb (contains "flipkart.com" u) then (AddInvalidUrl, None) else
          match fetch u with
          | None => (AddFetchFailed, None)
          | Some pd =>
              let l := match lookup user_id ps with Some l => l | None => [] end in
              let product_id :=
                match extract_product_id u with
                | Some p => p
                | None => string_of_nat (length l)
                end in
              let a := {| aid := product_id; name := pd_name pd; url := u;
                          current_price := pd_price pd; target_price := target;
                          added_on := now |} in
              (AddAdded (pd_name pd) (pd_price pd) target,
               Some (set_user user_id (l ++ [a]) ps))
          end
      end
  | _ => (AddUsage, None)
  end.

Inductive remove_reply :=
| RemoveUsage
| RemoveNoAlerts
| RemoveDone (removed : string)
| RemoveNotFound (alert_id : string).

(** The loop [for i, alert in enumerate(...): if str(alert['id']) == alert_id:
    pop(i); break]: the popped alert and the remaining list. *)
Fixpoint pop_first (alert_id : string) (l : list alert) : option (alert * list alert) :=
  match l with
  | [] => None
  | a :: r =>
      if String.eqb (aid a) alert_id then Some (a, r)
      else match pop_first alert_id r with
           | Some (x, r') => Some (x, a :: r')
           | None => None
           end
  end.

(** [remove_product]: the reply and the document written, if any. *)
Definition remove_product (ps : products) (user_id : string) (args : list string)
  : remove_reply * option products :=
  match args with
  | [] => (RemoveUsage, None)
  | alert_id :: _ =>
      match lookup user_id ps with
      | None | Some [] => (RemoveNoAlerts, None)
      | Some l =>
          match pop_first alert_id l with
          | Some (removed_alert, l') =>
              (RemoveDone (name removed_alert), Some (set_user user_id l' ps))
          | None => (RemoveNotFound alert_id, None)
          end
      end
  end.

(** ** The scan cycle [check_all_prices] *)

(** One entry of [user_updates]. *)
Record update_info := mkUpdate {
  u_name : string;
  u_old_price : Z;
  u_current_price : Z;
  u_target_price : Z;
  u_url : string
}.

(** How a [save_products] call ends: normally; by an exception from
    [open(DATA_FILE, 'w')], before the file is truncated; or by an
    exception from [json.dump] or from the flush when the file is closed,
    after the file was truncated and only part of the text written. *)
Inductive save_outcome :=
| Saved
| OpenFailed
| WriteFailed.

(** Observable effects of a cycle, in order: a fetch of a product page, a
    [send_message] attempt (the message text is rendered from the user's
    [user_updates]; [delivered] is [false] when it raised), and a
    [save_products] call with its outcome. *)
Inductive event :=
| EvFetch (u : string)
| EvSend (chat_id : string) (updates : list update_info) (delivered : bool)
| EvSave (ps : products) (outcome : save_outcome).

(** The data file after the cycle, as the next [load_products] reads it:
    a JSON document, or a truncated text that [json.load] refuses. *)
Inductive store :=
| Doc (ps : products)
| Broken.

(** The data file after [save_products(written)] over a file that held
    [loaded]. *)
Definition file_after_save (saving : save_outcome) (loaded written : products) : store :=
  match saving with
  | Saved => Doc written
  | OpenFailed => Doc loaded
  | WriteFailed => Broken
  end.

Record cycle_state := mkState {
  cs_products : products;
  cs_updates_found : bool;
  cs_trace : list event
}.

Record cycle_result := mkResult {
  cr_trace : list event;
  cr_memory : products;        (* the in-memory [products] at the end *)
  cr_store : store;            (* the data file afterwards *)
  cr_return : option bool      (* [updates_found], or [None] if it raised *)
}.

Section Cycle.

(** [get_product_details] during the cycle, per product URL. *)
Variable fetch : string -> option product_details.
(** Whether [context.bot.send_message] succeeds for a chat and message. *)
Variable deliver : string -> list update_info -> bool.
(** How [save_products] ends, if it is called. *)
Variable saving : save_outcome.

(** Body of the inner loop for one alert: the alert afterwards and the
    entry appended to [user_updates], if any. *)
Definition check_alert (a : alert) : alert * option update_info :=
  match fetch (url a) with
  | None => (a, None)
  | Some product_details =>
      let current_price' := pd_price product_details in
      let old_price := current_price a in
      let a' := {| aid := aid a; name := name a; url := url a;
                   current_price := current_price'; target_price := target_price a;
                   added_on := added_on a |} in
      if (current_price' <=? target_price a) && (target_price a <? old_price) then
        (a', Some {| u_name := name a; u_old_price := old_price;
                     u_current_price := current_price'; u_target_price := target_price a;
                     u_url := url a |})
      else (a', None)
  end.

Definition opt_list {A} (o : option A) : list A :=
  match o with Some x => [x] | None => [] end.

(** The inner loop over one user's alerts. *)
Fixpoint check_alerts (l : list alert) : list alert * list update_info * list event :=
  match l with
  | [] => ([], [], [])
  | a :: r =>
      let '(a', n) := check_alert a in
      let '(r', ns, tr) := check_alerts r in
      (a' :: r', opt_list n ++ ns, EvFetch (url a) :: tr)
  end.

(** One iteration of the loop over [users_to_check]. *)
Definition check_user (st : cycle_state) (user_id : string) : cycle_state :=
  match lookup user_id (cs_products st) with
  | None => st
  | Some l =>
      let '(l', user_updates, tr) := check_alerts l in
      let ps' := set_user user_id l' (cs_products st) in
      match user_updates with
      | [] => mkState ps' (cs_updates_found st) (cs_trace st ++ tr)
      | _ :: _ =>
          mkState ps' true
            (cs_trace st ++ tr ++ [EvSend user_id user_updates (deliver user_id user_updates)])
      end
  end.

(** [specific_users if specific_users else products.keys()] *)
Definition users_to_check (specific_users : option (list string)) (ps : products)
  : list string :=
  match specific_users with
  | Some ((_ :: _) as us) => us
  | _ => map fst ps
  end.

(** [check_all_prices(context, specific_users)] on the loaded document [ps]. *)
Definition check_all_prices (ps : products) (specific_users : option (list string))
  : cycle_result :=
  let st := fold_left check_user (users_to_check specific_users ps) (mkState ps false []) in
  if cs_updates_found st then
    mkResult (cs_trace st ++ [EvSave (cs_products st) saving]) (cs_products st)
      (file_after_save saving ps (cs_products st))
      (match saving with Saved => Some true | _ => None end)
  else
    mkResult (cs_trace st) (cs_products st) (Doc ps) (Some false).

End Cycle.

(** ** Trace observers *)

Definition is_save (e : event) : bool :=
  match e with EvSave _ _ => true | _ => false end.

Definition is_send (e : event) : bool :=
  match e with EvSend _ _ _ => true | _ => false end.

Definition count_saves (tr : list event) : nat := length (filter is_save tr).

(** The number of notifications ([user_updates] entries) sent in a trace. *)
Definition notif_count (tr : list event) : nat :=
  fold_right (fun e n => match e with EvSend _ us _ => (length us + n)%nat | _ => n end) 0%nat tr.

(** A trace with the delivery outcome of every send forgotten. *)
Definition erase_delivery (e : event) : event :=
  match e with EvSend c us _ => EvSend c us true | e => e end.

(** ** Lemmas on text *)

Ltac reflect_bools :=
  repeat match goal with
  | H : _ || _ = true |- _ => apply orb_true_iff in H as [H|H]
  | H : _ && _ = true |- _ => apply andb_true_iff in H as [? H]
  | H : (_ <=? _) = true |- _ => apply Z.leb_le in H
  | H : (_ <? _) = true |- _ => apply Z.ltb_lt in H
  | H : (_ =? _) = true |- _ => apply Z.eqb_eq in H
  end.

Lemma string_app_nil_r (s : string) : (s ++ "")%string = s.
Proof. induction s as [|c s IH]; simpl; [reflexivity | now rewrite IH]. Qed.

Lemma string_app_assoc (a b c : string) : (a ++ b ++ c)%string = ((a ++ b) ++ c)%string.
Proof. induction a as [|x a IH]; simpl; [reflexivity | now rewrite IH]. Qed.

Lemma rev_str_app (a b : string) : rev_str (a ++ b) = (rev_str b ++ rev_str a)%string.
Proof.
  induction a as [|c a IH]; simpl.
  - now rewrite string_app_nil_r.
  - now rewrite IH, string_app_assoc.
Qed.

Lemma rev_str_involutive (s : string) : rev_str (rev_str s) = s.
Proof.
  induction s as [|c s IH]; simpl; [reflexivity|].
  now rewrite rev_str_app, IH.
Qed.

Lemma list_ascii_app (a b : string) :
  list_ascii_of_string (a ++ b) = list_ascii_of_string a ++ list_ascii_of_string b.
Proof. induction a as [|c a IH]; simpl; [reflexivity | now rewrite IH]. Qed.

Lemma list_ascii_rev_str (s : string) :
  list_ascii_of_string (rev_str s) = rev (list_ascii_of_string s).
Proof. induction s as [|c s IH]; simpl; [reflexivity|]. now rewrite list_ascii_app, IH. Qed.

(** [c_strip] leaves a text without ASCII whitespace as it is. *)
Lemma c_strip_keep (s : string) :
  (forall c, In c (list_ascii_of_string s) -> c_isspace c = false) -> c_strip s = s.
Proof.
  intro H.
  assert (K : forall t, (forall c, In c (list_ascii_of_string t) -> c_isspace c = false) ->
                        c_lstrip t = t).
  { intros [|c t] Ht; simpl; [reflexivity|]. now rewrite (Ht c (or_introl eq_refl)). }
  unfold c_strip. rewrite (K s H), K; [apply rev_str_involutive|].
  intros c Hc. rewrite list_ascii_rev_str in Hc. apply in_rev in Hc. exact (H c Hc).
Qed.

Lemma byte_range (b : ascii) : 0 <= byte b < 256.
Proof. unfold byte. pose proof (nat_ascii_bounded b). lia. Qed.

Lemma utf8_decode_step (b1 : ascii) (r1 : string) :
  utf8_decode (String b1 r1) =
      let x := byte b1 in
      if x <? 192 then x :: utf8_decode r1 else
      match r1 with
      | EmptyString => x :: utf8_decode r1
      | String b2 r2 =>
          if negb (cont b2) then x :: utf8_decode r1 else
          if x <? 224 then ((x - 192) * 64 + (byte b2 - 128)) :: utf8_decode r2 else
          match r2 with
          | EmptyString => x :: utf8_decode r1
          | String b3 r3 =>
              if negb (cont b3) then x :: utf8_decode r1 else
              if x <? 240 then
                (((x - 224) * 64 + (byte b2 - 128)) * 64 + (byte b3 - 128)) :: utf8_decode r3
              else
              match r3 with
              | EmptyString => x :: utf8_decode r1
              | String b4 r4 =>
                  if negb (cont b4) then x :: utf8_decode r1 else
                  ((((x - 240) * 64 + (byte b2 - 128)) * 64 + (byte b3 - 128)) * 64
                     + (byte b4 - 128)) :: utf8_decode r4
              end
          end
      end.
Proof. reflexivity. Qed.

(** Decoding yields non-negative code points. *)
Lemma utf8_decode_nonneg (s : string) : Forall (fun c => 0 <= c) (utf8_decode s).
Proof.
  remember (String.length s) as n eqn:E. revert s E.
  induction n as [n IH] using lt_wf_ind. intros s E.
  assert (R : forall t, (String.length t < n)%nat -> Forall (fun c => 0 <= c) (utf8_decode t))
    by (intros t Ht; exact (IH _ Ht t eq_refl)).
  destruct s as [|b1 r1]; [constructor|]. simpl in E.
  assert (R1 := R r1 ltac:(lia)). pose proof (byte_range b1).
  rewrite utf8_decode_step. cbv zeta.
  destruct (byte b1 <? 192) eqn:E1; [constructor; [lia | exact R1]|].
  apply Z.ltb_ge in E1.
  destruct r1 as [|b2 r2]; [constructor; [lia | exact R1]|].
  simpl in E. pose proof (byte_range b2).
  destruct (cont b2) eqn:C2; cbn [negb]; [|constructor; [lia | exact R1]].
  unfold cont in C2; reflect_bools.
  destruct (byte b1 <? 224) eqn:E2; [constructor; [lia | apply R; lia]|].
  apply Z.ltb_ge in E2.
  destruct r2 as [|b3 r3]; [constructor; [lia | exact R1]|].
  simpl in E. pose proof (byte_range b3).
  destruct (cont b3) eqn:C3; cbn [negb]; [|constructor; [lia | exact R1]].
  unfold cont in C3; reflect_bools.
  destruct (byte b1 <? 240) eqn:E3; [constructor; [lia | apply R; lia]|].
  apply Z.ltb_ge in E3.
  destruct r3 as [|b4 r4]; [constructor; [lia | exact R1]|].
  simpl in E. pose proof (byte_range b4).
  destruct (cont b4) eqn:C4; cbn [negb]; [|constructor; [lia | exact R1]].
  unfold cont in C4; reflect_bools.
  constructor; [lia | apply R; lia].
Qed.

Lemma lstrip_ws_Forall (I : interp) (P : Z -> Prop) (l : list Z) :
  Forall P l -> Forall P (lstrip_ws I l).
Proof.
  induction 1 as [|c l Hc H IH]; simpl; [constructor|].
  destruct (py_isspace I c); [exact IH | constructor; assumption].
Qed.

Lemma str_strip_Forall (I : interp) (P : Z -> Prop) (l : list Z) :
  Forall P l -> Forall P (str_strip I l).
Proof.
  intro H. unfold str_strip.
  apply Forall_rev, lstrip_ws_Forall, Forall_rev, lstrip_ws_Forall, H.
Qed.

Lemma filter_rev' (f : Z -> bool) (l : list Z) : filter f (rev l) = rev (filter f l).
Proof.
  induction l as [|c l IH]; simpl; [reflexivity|].
  rewrite filter_app, IH. simpl. destruct (f c); simpl; [reflexivity | apply app_nil_r].
Qed.

Section Digits.

Variable I : interp.
Hypothesis HI : interp_ok I.

Lemma filter_lstrip_ws (l : list Z) :
  filter (py_isdigit I) (lstrip_ws I l) = filter (py_isdigit I) l.
Proof.
  induction l as [|c l IH]; simpl; [reflexivity|].
  destruct (py_isspace I c) eqn:Hs; [|reflexivity].
  now rewrite IH, (ok_space_not_digit I HI c Hs).
Qed.

(** Stripping whitespace does not change the digits of a text. *)
Lemma filter_str_strip (l : list Z) :
  filter (py_isdigit I) (str_strip I l) = filter (py_isdigit I) l.
Proof.
  unfold str_strip.
  now rewrite filter_rev', filter_lstrip_ws, filter_rev', rev_involutive, filter_lstrip_ws.
Qed.

End Digits.

(** The value of a decimal digit character. *)
Definition dec (I : interp) (c : Z) : Z :=
  match py_todecimal I c with Some d => d | None => 0 end.

(** The number written by a list of decimal digit characters. *)
Definition decimal_value (I : interp) (l : list Z) : Z :=
  fold_left (fun acc c => acc * 10 + dec I c) l 0.

(** The ASCII text of a list of digit values. *)
Fixpoint ascii_digits (ds : list Z) : string :=
  match ds with
  | [] => EmptyString
  | d :: r => String (ascii_of_Z (48 + d)) (ascii_digits r)
  end.

Definition digit_list (ds : list Z) : Prop := Forall (fun d => 0 <= d <= 9) ds.

Lemma digit_char (d : Z) : 0 <= d <= 9 ->
  c_isdigit (ascii_of_Z (48 + d)) = true /\ digit_value (ascii_of_Z (48 + d)) = d /\
  c_isspace (ascii_of_Z (48 + d)) = false /\
  Ascii.eqb (ascii_of_Z (48 + d)) "-"%char = false /\
  Ascii.eqb (ascii_of_Z (48 + d)) "+"%char = false.
Proof.
  intro H.
  assert (Hd : d = 0 \/ d = 1 \/ d = 2 \/ d = 3 \/ d = 4 \/ d = 5 \/ d = 6 \/ d = 7 \/
               d = 8 \/ d = 9) by lia.
  repeat destruct Hd as [-> | Hd]; [..| subst d]; repeat split.
Qed.

Lemma ascii_digits_nospace (ds : list Z) (tail : string) :
  digit_list ds -> (forall c, In c (list_ascii_of_string tail) -> c_isspace c = false) ->
  forall c, In c (list_ascii_of_string (ascii_digits ds ++ tail)) -> c_isspace c = false.
Proof.
  intros Hds Ht. induction Hds as [|d ds Hd _ IH]; simpl; [exact Ht|].
  intros c [<- | Hc]; [apply (digit_char d Hd) | exact (IH c Hc)].
Qed.

Lemma parse_digits_false (ds : list Z) :
  digit_list ds -> forall acc,
  parse_digits false acc (ascii_digits ds) = Some (fold_left (fun a d => a * 10 + d) ds acc).
Proof.
  induction 1 as [|d ds Hd _ IH]; intro acc; [reflexivity|].
  destruct (digit_char d Hd) as (D1 & D2 & _).
  cbn [ascii_digits parse_digits]. rewrite D1, D2. apply IH.
Qed.

Lemma parse_digits_question (ds : list Z) :
  digit_list ds -> forall b acc,
  parse_digits b acc (ascii_digits ds ++ String "?"%char EmptyString) = None.
Proof.
  induction 1 as [|d ds Hd _ IH]; intros b acc; [reflexivity|].
  destruct (digit_char d Hd) as (D1 & D2 & _).
  cbn [ascii_digits append parse_digits]. rewrite D1. apply IH.
Qed.

Lemma fold_digits_nonneg (ds : list Z) :
  digit_list ds -> forall acc, 0 <= acc -> 0 <= fold_left (fun a d => a * 10 + d) ds acc.
Proof.
  induction 1 as [|d ds Hd _ IH]; intros acc Hacc; simpl; [exact Hacc|].
  apply IH. lia.
Qed.

(** [PyLong_FromString] on a text of ASCII digits. *)
Lemma long_from_string_digits (m : nat) (ds : list Z) (v : Z) :
  digit_list ds -> long_from_string m (ascii_digits ds) = Some v ->
  ds <> [] /\ v = fold_left (fun a d => a * 10 + d) ds 0.
Proof.
  intros Hds H. unfold long_from_string in H.
  rewrite c_strip_keep in H.
  2: { intros c Hc. rewrite <- (string_app_nil_r (ascii_digits ds)) in Hc.
       exact (ascii_digits_nospace ds "" Hds (fun _ F => False_ind _ F) c Hc). }
  destruct Hds as [|d ds Hd Hr]; [discriminate|].
  destruct (digit_char d Hd) as (D1 & D2 & _ & D4 & D5).
  cbn [ascii_digits] in H. rewrite D4, D5 in H. cbv beta iota zeta in H.
  assert (Hp : parse_digits true 0 (String (ascii_of_Z (48 + d)) (ascii_digits ds)) =
               Some (fold_left (fun a d => a * 10 + d) ds (0 * 10 + d))).
  { cbn [parse_digits]. rewrite D1, D2. apply parse_digits_false, Hr. }
  rewrite Hp in H. cbv beta iota zeta in H.
  destruct (_ && _ && _)%nat; [discriminate|]. injection H as <-.
  split; [discriminate|]. cbn [fold_left]. replace (0 * 10 + d) with d by lia.
  now destruct (fold_left _ ds d).
Qed.

Lemma long_from_string_question (m : nat) (ds : list Z) :
  digit_list ds -> long_from_string m (ascii_digits ds ++ String "?"%char EmptyString) = None.
Proof.
  intros Hds. unfold long_from_string.
  rewrite c_strip_keep.
  2: { apply (ascii_digits_nospace ds _ Hds). intros c [<- | []]. reflexivity. }
  destruct Hds as [|d ds Hd Hr]; [reflexivity|].
  destruct (digit_char d Hd) as (D1 & D2 & _ & D4 & D5).
  cbn [ascii_digits append]. rewrite D4, D5. cbv beta iota zeta.
  assert (Hq := parse_digits_question (d :: ds) (Forall_cons _ Hd Hr) true 0).
  cbn [ascii_digits append] in Hq. rewrite Hq. reflexivity.
Qed.

Section IntOfDigits.

Variable I : interp.
Hypothesis HI : interp_ok I.

Definition digit_char_ok (c : Z) : Prop := py_isdigit I c = true /\ 0 <= c.

Lemma ascii_digit_decimal (c : Z) : digit_char_ok c -> c < 128 ->
  48 <= c <= 57 /\ py_todecimal I c = Some (c - 48).
Proof.
  intros [Hd Hc] Hlt.
  rewrite (ok_ascii_digit I HI c ltac:(lia)) in Hd. reflect_bools.
  split; [lia|]. rewrite (ok_ascii_decimal I HI c ltac:(lia)).
  replace ((48 <=? c) && (c <=? 57)) with true; [reflexivity|].
  symmetry. apply andb_true_iff. split; apply Z.leb_le; lia.
Qed.

Lemma ascii_path (l : list Z) :
  Forall digit_char_ok l -> forallb (fun c => c <? 128) l = true ->
  Forall (fun c => py_todecimal I c <> None) l /\ digit_list (map (dec I) l) /\
  ascii_of_codes l = ascii_digits (map (dec I) l).
Proof.
  induction 1 as [|c l Hc Hl IH]; intro Hb; [repeat split; constructor|].
  simpl in Hb. apply andb_true_iff in Hb as [Hb Hb']. apply Z.ltb_lt in Hb.
  destruct (IH Hb') as (A & B & C).
  destruct (ascii_digit_decimal c Hc Hb) as [R D].
  assert (Dc : dec I c = c - 48) by (unfold dec; now rewrite D).
  cbn [map]. rewrite Dc.
  split; [constructor; [rewrite D; discriminate | exact A]|].
  split; [constructor; [lia | exact B]|].
  change (ascii_of_codes (c :: l)) with (String (ascii_of_Z c) (ascii_of_codes l)).
  cbn [ascii_digits]. rewrite C. do 2 f_equal. lia.
Qed.

Lemma transform_path (l : list Z) :
  Forall digit_char_ok l ->
  (Forall (fun c => py_todecimal I c <> None) l /\ digit_list (map (dec I) l) /\
   to_ascii_decimal I l = ascii_digits (map (dec I) l)) \/
  (exists ds, digit_list ds /\
     to_ascii_decimal I l = (ascii_digits ds ++ String "?"%char EmptyString)%string).
Proof.
  induction 1 as [|c l Hc Hl IH]; [left; repeat split; constructor|].
  cbn [to_ascii_decimal map].
  assert (Step : forall d, 0 <= d <= 9 -> py_todecimal I c = Some d ->
            (Forall (fun c => py_todecimal I c <> None) (c :: l) /\
             digit_list (d :: map (dec I) l) /\
             String (ascii_of_Z (48 + d)) (to_ascii_decimal I l) =
               ascii_digits (d :: map (dec I) l)) \/
            (exists ds, digit_list ds /\
               String (ascii_of_Z (48 + d)) (to_ascii_decimal I l) =
                 (ascii_digits ds ++ String "?"%char EmptyString)%string)).
  { intros d Hd D. destruct IH as [(A & B & C) | (ds & B & C)].
    - left. split; [constructor; [rewrite D; discriminate | exact A]|].
      split; [constructor; assumption|]. simpl. now rewrite C.
    - right. exists (d :: ds). split; [constructor; assumption|]. simpl. now rewrite C. }
  destruct (c <? 127) eqn:E.
  - apply Z.ltb_lt in E. destruct (ascii_digit_decimal c Hc ltac:(lia)) as [R D].
    assert (Dc : dec I c = c - 48) by (unfold dec; now rewrite D).
    rewrite Dc. replace (ascii_of_Z c) with (ascii_of_Z (48 + (c - 48))) by (f_equal; lia).
    apply Step; [lia | exact D].
  - destruct Hc as [Hd Hnn].
    destruct (py_isspace I c) eqn:S.
    { rewrite (ok_space_not_digit I HI c S) in Hd. discriminate. }
    destruct (py_todecimal I c) as [d|] eqn:D.
    + assert (Dc : dec I c = d) by (unfold dec; now rewrite D).
      rewrite Dc. apply Step; [apply (ok_decimal I HI c d D) | reflexivity].
    + right. exists []. split; [constructor | reflexivity].
Qed.

(** [int] on a text made of [str.isdigit] characters: it succeeds only if
    the text is not empty and every character is a decimal digit, and then
    gives the non-negative number they write. *)
Lemma py_int_digits (l : list Z) (v : Z) :
  Forall digit_char_ok l -> py_int I l = Some v ->
  l <> [] /\ Forall (fun c => py_todecimal I c <> None) l /\ v = decimal_value I l /\ 0 <= v.
Proof.
  intros Hl H. unfold py_int in H.
  assert (Fin : Forall (fun c => py_todecimal I c <> None) l -> digit_list (map (dec I) l) ->
                long_from_string (max_str_digits I) (ascii_digits (map (dec I) l)) = Some v ->
                l <> [] /\ Forall (fun c => py_todecimal I c <> None) l /\
                v = decimal_value I l /\ 0 <= v).
  { intros A B C. destruct (long_from_string_digits _ _ _ B C) as [Hne Hv].
    split; [intros ->; now apply Hne|]. split; [exact A|].
    assert (Hv' : v = decimal_value I l).
    { rewrite Hv. unfold decimal_value. clear. generalize 0.
      induction l as [|c l IH]; intro acc; simpl; [reflexivity | apply IH]. }
    split; [exact Hv'|]. rewrite Hv. apply fold_digits_nonneg; [exact B | lia]. }
  destruct (forallb (fun c => c <? 128) l) eqn:Hb.
  - destruct (ascii_path l Hl Hb) as (A & B & C). rewrite C in H. exact (Fin A B H).
  - destruct (transform_path l Hl) as [(A & B & C) | (ds & B & C)]; rewrite C in H.
    + exact (Fin A B H).
    + rewrite (long_from_string_question _ _ B) in H. discriminate.
Qed.

End IntOfDigits.

(** [int('')] raises [ValueError]. *)
Lemma py_int_nil (I : interp) : py_int I [] = None.
Proof. reflexivity. Qed.

(** ** A sample database

    A fragment of the Unicode database, exact on the characters it
    classifies: the whitespace of [str.isspace], the ASCII, Arabic-Indic
    and Devanagari decimal digits, and the superscripts one, two and three,
    which are digits but not decimal.  Every other character counts as a
    letter.  It is used to run the examples. *)
Definition sample_isspace (c : Z) : bool :=
  ((9 <=? c) && (c <=? 13)) || ((28 <=? c) && (c <=? 32)) || (c =? 133) || (c =? 160) ||
  (c =? 5760) || ((8192 <=? c) && (c <=? 8202)) || (c =? 8232) || (c =? 8233) ||
  (c =? 8239) || (c =? 8287) || (c =? 12288).

Definition sample_todecimal (c : Z) : option Z :=
  if (48 <=? c) && (c <=? 57) then Some (c - 48)
  else if (1632 <=? c) && (c <=? 1641) then Some (c - 1632)
  else if (2406 <=? c) && (c <=? 2415) then Some (c - 2406)
  else None.

Definition sample_isdigit (c : Z) : bool :=
  match sample_todecimal c with
  | Some _ => true
  | None => (c =? 178) || (c =? 179) || (c =? 185)
  end.

Definition sample_interp : interp :=
  mkInterp sample_isspace sample_isdigit sample_todecimal 4300.

Lemma below_128 (P : Z -> bool) :
  forallb (fun n => P (Z.of_nat n)) (seq 0 128) = true -> forall c, 0 <= c < 128 -> P c = true.
Proof.
  intros H c Hc. rewrite forallb_forall in H.
  specialize (H (Z.to_nat c)). rewrite Z2Nat.id in H by lia. apply H.
  apply in_seq. lia.
Qed.

Lemma sample_todecimal_ascii (c : Z) : 0 <= c < 128 ->
  sample_todecimal c = if (48 <=? c) && (c <=? 57) then Some (c - 48) else None.
Proof.
  intro Hc. unfold sample_todecimal.
  destruct ((48 <=? c) && (c <=? 57)); [reflexivity|].
  rewrite (proj2 (Z.leb_gt 1632 c)) by lia. rewrite (proj2 (Z.leb_gt 2406 c)) by lia.
  reflexivity.
Qed.

Lemma sample_interp_ok : interp_ok sample_interp.
Proof.
  split; unfold sample_interp; cbn [py_isspace py_isdigit py_todecimal].
  - intros c Hc. apply Bool.eqb_prop.
    exact (below_128 (fun c => Bool.eqb (sample_isspace c)
                                 (((9 <=? c) && (c <=? 13)) || ((28 <=? c) && (c <=? 32))))
             ltac:(vm_compute; reflexivity) c Hc).
  - intros c Hc. unfold sample_isdigit. rewrite (sample_todecimal_ascii c Hc).
    destruct ((48 <=? c) && (c <=? 57)); [reflexivity|].
    rewrite (proj2 (Z.eqb_neq c 178)), (proj2 (Z.eqb_neq c 179)), (proj2 (Z.eqb_neq c 185))
      by lia. reflexivity.
  - exact sample_todecimal_ascii.
  - intros c d H. split; [|unfold sample_isdigit; now rewrite H].
    unfold sample_todecimal in H.
    destruct ((48 <=? c) && (c <=? 57)) eqn:E1;
      [injection H as <-; reflect_bools; lia|].
    destruct ((1632 <=? c) && (c <=? 1641)) eqn:E2;
      [injection H as <-; reflect_bools; lia|].
    destruct ((2406 <=? c) && (c <=? 2415)) eqn:E3;
      [injection H as <-; reflect_bools; lia | discriminate].
  - intros c Hs. unfold sample_isdigit, sample_todecimal.
    destruct ((48 <=? c) && (c <=? 57)) eqn:E1;
      [exfalso; unfold sample_isspace in Hs; reflect_bools; lia|].
    destruct ((1632 <=? c) && (c <=? 1641)) eqn:E2;
      [exfalso; unfold sample_isspace in Hs; reflect_bools; lia|].
    destruct ((2406 <=? c) && (c <=? 2415)) eqn:E3;
      [exfalso; unfold sample_isspace in Hs; reflect_bools; lia|].
    destruct ((c =? 178) || (c =? 179) || (c =? 185)) eqn:E4; [|reflexivity].
    exfalso; unfold sample_isspace in Hs; reflect_bools; lia.
Qed.

(** ** Examples *)

Example fetch_strips_price :
  get_product_details sample_interp "u"%string
    (Some (mkPage None (Some " Phone "%string) (Some "Rs. 1,299"%string) None))
  = Some (mkDetails "Phone"%string 1299 "u"%string None).
Proof. vm_compute. reflexivity. Qed.

(** The price text ["₹१२३"] (a rupee sign and Devanagari digits). *)
Definition devanagari_price : string := utf8_encode [8377; 2407; 2408; 2409].

Example fetch_devanagari_price :
  get_product_details sample_interp "u"%string
    (Some (mkPage (Some "Phone"%string) None (Some devanagari_price) None))
  = Some (mkDetails "Phone"%string 123 "u"%string None).
Proof. vm_compute. reflexivity. Qed.

(** ["Rs 1²"]: [str.isdigit] keeps the superscript two, which [int]
    refuses. *)
Example fetch_superscript_refused :
  get_product_details sample_interp "u"%string
    (Some (mkPage (Some "Phone"%string) None (Some (utf8_encode [82; 115; 32; 49; 178])) None))
  = None.
Proof. vm_compute. reflexivity. Qed.

(** A name padded with no-break spaces is stripped. *)
Example fetch_strips_nbsp :
  get_product_details sample_interp "u"%string
    (Some (mkPage (Some (utf8_encode [160; 80; 104; 111; 110; 101; 160])) None
                  (Some "999"%string) None))
  = Some (mkDetails "Phone"%string 999 "u"%string None).
Proof. vm_compute. reflexivity. Qed.

(** [int('١٢')] is 12 (Arabic-Indic digits). *)
Example int_arabic_indic : parse_int sample_interp (utf8_encode [1633; 1634]) = Some 12.
Proof. vm_compute. reflexivity. Qed.

Example fetch_missing_src :
  get_product_details sample_interp "u"%string
    (Some (mkPage (Some "P"%string) None (Some "99"%string) (Some None))) = None.
Proof. reflexivity. Qed.

Example pid_leftmost :
  extract_product_id "https://www.flipkart.com/x/p/itm?pid=MOBG123&lid=9"%string
  = Some "MOBG123"%string.
Proof. reflexivity. Qed.

(** ** C7: the fetcher returns a whole snapshot or nothing *)

(** What a snapshot returned by [get_product_details] is made of. *)
Lemma get_product_details_some (I : interp) (HI : interp_ok I) (u : string)
    (response : option page) (pd : product_details) :
  get_product_details I u response = Some pd ->
  exists soup price_text name_text,
    response = Some soup /\ sel_price soup = Some price_text /\
    (sel_name soup = Some name_text \/
     (sel_name soup = None /\ sel_name_h1 soup = Some name_text)) /\
    filter (py_isdigit I) (utf8_decode price_text) <> [] /\
    Forall (fun c => py_todecimal I c <> None) (filter (py_isdigit I) (utf8_decode price_text)) /\
    pd_price pd = decimal_value I (filter (py_isdigit I) (utf8_decode price_text)) /\
    0 <= pd_price pd /\
    pd_name pd = utf8_encode (str_strip I (utf8_decode name_text)) /\ pd_url pd = u.
Proof.
  intro H. destruct response as [soup|]; [|discriminate].
  unfold get_product_details in H.
  destruct (sel_price soup) as [price_text|] eqn:Hp; [|discriminate].
  destruct (match sel_name soup with Some t => Some t | None => sel_name_h1 soup end)
    as [name_text|] eqn:Hn; [|discriminate].
  cbv zeta in H. rewrite (filter_str_strip I HI) in H.
  destruct (py_int I (filter (py_isdigit I) (utf8_decode price_text))) as [price|] eqn:Hi;
    [|discriminate].
  assert (Hd : Forall (digit_char_ok I) (filter (py_isdigit I) (utf8_decode price_text))).
  { apply Forall_forall. intros c Hc. apply filter_In in Hc as [Hc Hc'].
    split; [exact Hc'|]. exact (proj1 (Forall_forall _ _) (utf8_decode_nonneg price_text) c Hc). }
  destruct (py_int_digits I HI _ price Hd Hi) as (Hne & Hdec & Hv & Hnn).
  assert (Hpd : pd = {| pd_name := utf8_encode (str_strip I (utf8_decode name_text));
                        pd_price := price; pd_url := u;
                        pd_image := match sel_img soup with Some (Some s) => Some s | _ => None end |}).
  { destruct (sel_img soup) as [[s|]|];
      [injection H as <-; reflexivity | discriminate | injection H as <-; reflexivity]. }
  subst pd. exists soup, price_text, name_text. cbn [pd_price pd_name pd_url].
  split; [reflexivity|]. split; [exact Hp|]. split.
  { destruct (sel_name soup); [left; congruence | right; split; congruence]. }
  repeat split; assumption.
Qed.

(** C7: when the price element or both name elements are missing,
    [get_product_details] returns [None]; when it returns a snapshot, the
    page had a price text and a name text, the characters of the price
    text that [str.isdigit] accepts are not none and all decimal digits,
    the snapshot's price is the non-negative integer they write (every
    other character removed), and the snapshot's name and url are filled,
    the name being the stripped name text. *)
Theorem get_product_details_whole_or_none (I : interp) (HI : interp_ok I) (u : string)
    (response : option page) :
  (forall soup, response = Some soup ->
     (sel_price soup = None \/ (sel_name soup = None /\ sel_name_h1 soup = None)) ->
     get_product_details I u response = None) /\
  (forall pd, get_product_details I u response = Some pd ->
     exists soup price_text name_text,
       response = Some soup /\ sel_price soup = Some price_text /\
       (sel_name soup = Some name_text \/
        (sel_name soup = None /\ sel_name_h1 soup = Some name_text)) /\
       filter (py_isdigit I) (utf8_decode price_text) <> [] /\
       Forall (fun c => py_todecimal I c <> None) (filter (py_isdigit I) (utf8_decode price_text)) /\
       pd_price pd = decimal_value I (filter (py_isdigit I) (utf8_decode price_text)) /\
       0 <= pd_price pd /\
       pd_name pd = utf8_encode (str_strip I (utf8_decode name_text)) /\ pd_url pd = u).
Proof.
  split.
  - intros soup -> [Hp | [Hn Hh]]; simpl.
    + now rewrite Hp.
    + rewrite Hn, Hh. now destruct (sel_price soup).
  - exact (get_product_details_some I HI u response).
Qed.

Lemma get_product_details_whole_or_none_witness :
  interp_ok sample_interp /\
  ((forall soup,
      Some (mkPage (Some "Phone"%string) None (Some devanagari_price) None) = Some soup ->
      (sel_price soup = None \/ (sel_name soup = None /\ sel_name_h1 soup = None)) ->
      get_product_details sample_interp "u"%string
        (Some (mkPage (Some "Phone"%string) None (Some devanagari_price) None)) = None) /\
   (forall pd, get_product_details sample_interp "u"%string
                 (Some (mkPage (Some "Phone"%string) None (Some devanagari_price) None)) = Some pd ->
      exists soup price_text name_text,
        Some (mkPage (Some "Phone"%string) None (Some devanagari_price) None) = Some soup /\
        sel_price soup = Some price_text /\
        (sel_name soup = Some name_text \/
         (sel_name soup = None /\ sel_name_h1 soup = Some name_text)) /\
        filter (py_isdigit sample_interp) (utf8_decode price_text) <> [] /\
        Forall (fun c => py_todecimal sample_interp c <> None)
          (filter (py_isdigit sample_interp) (utf8_decode price_text)) /\
        pd_price pd = decimal_value sample_interp
                        (filter (py_isdigit sample_interp) (utf8_decode price_text)) /\
        0 <= pd_price pd /\
        pd_name pd = utf8_encode (str_strip sample_interp (utf8_decode name_text)) /\
        pd_url pd = "u"%string)).
Proof.
  split; [exact sample_interp_ok|].
  exact (get_product_details_whole_or_none sample_interp sample_interp_ok "u"%string
           (Some (mkPage (Some "Phone"%string) None (Some devanagari_price) None))).
Defined.

(** ** Lemmas on the document *)

Lemma lookup_set_user_same (u : string) (l : list alert) (ps : products) :
  lookup u (set_user u l ps) = Some l.
Proof.
  induction ps as [|[v l0] ps IH]; simpl.
  - now rewrite String.eqb_refl.
  - destruct (String.eqb v u) eqn:E; simpl; rewrite E; [reflexivity | exact IH].
Qed.

Lemma lookup_set_user_other (u v : string) (l : list alert) (ps : products) :
  u <> v -> lookup v (set_user u l ps) = lookup v ps.
Proof.
  intro Huv. induction ps as [|[w l0] ps IH]; simpl.
  - apply String.eqb_neq in Huv. now rewrite Huv.
  - destruct (String.eqb w u) eqn:E; simpl.
    + apply String.eqb_eq in E; subst w.
      apply String.eqb_neq in Huv. now rewrite Huv.
    + destruct (String.eqb w v); [reflexivity | exact IH].
Qed.

Lemma lookup_set_user (u v : string) (l : list alert) (ps : products) :
  lookup v (set_user u l ps) = if String.eqb u v then Some l else lookup v ps.
Proof.
  destruct (String.eqb u v) eqn:E.
  - apply String.eqb_eq in E; subst v. apply lookup_set_user_same.
  - apply String.eqb_neq in E. now apply lookup_set_user_other.
Qed.

Lemma pop_first_split (alert_id : string) (l1 l2 : list alert) (a : alert) :
  Forall (fun b => aid b <> alert_id) l1 -> aid a = alert_id ->
  pop_first alert_id (l1 ++ a :: l2) = Some (a, l1 ++ l2).
Proof.
  intros H1 Ha. induction H1 as [|b l1 Hb H1 IH]; simpl.
  - now rewrite Ha, String.eqb_refl.
  - apply String.eqb_neq in Hb. now rewrite Hb, IH.
Qed.

Lemma pop_first_none (alert_id : string) (l : list alert) :
  Forall (fun b => aid b <> alert_id) l -> pop_first alert_id l = None.
Proof.
  induction 1 as [|b l Hb H IH]; simpl; [reflexivity|].
  apply String.eqb_neq in Hb. now rewrite Hb, IH.
Qed.

(** ** C6: [remove] *)

(** C6: given an id argument, when the caller's list is [l1 ++ a :: l2]
    with [a] the first alert whose id is the argument, [remove] replies
    that [a] was removed and writes the document where the caller's list is
    [l1 ++ l2] and every other user's list is unchanged.  When no alert of
    the caller has that id, nothing is written and the reply is the
    not-found message ([RemoveNotFound], or [RemoveNoAlerts] when the caller
    has no alerts at all). *)
Theorem remove_product_first_or_untouched (ps : products) (user_id alert_id : string)
    (rest : list string) :
  (forall l1 a l2, lookup user_id ps = Some (l1 ++ a :: l2) ->
     Forall (fun b => aid b <> alert_id) l1 -> aid a = alert_id ->
     exists ps',
       remove_product ps user_id (alert_id :: rest) = (RemoveDone (name a), Some ps') /\
       lookup user_id ps' = Some (l1 ++ l2) /\
       (forall v, v <> user_id -> lookup v ps' = lookup v ps)) /\
  ((forall l, lookup user_id ps = Some l -> Forall (fun b => aid b <> alert_id) l) ->
     remove_product ps user_id (alert_id :: rest) =
       (match lookup user_id ps with
        | Some (_ :: _) => RemoveNotFound alert_id
        | _ => RemoveNoAlerts
        end, None)).
Proof.
  split.
  - intros l1 a l2 Hl H1 Ha.
    exists (set_user user_id (l1 ++ l2) ps).
    unfold remove_product. rewrite Hl.
    assert (Hp := pop_first_split alert_id l1 l2 a H1 Ha).
    destruct (l1 ++ a :: l2) as [|b l] eqn:E; [destruct l1; discriminate|].
    rewrite Hp.
    split; [reflexivity|]. split; [apply lookup_set_user_same|].
    intros v Hv. apply lookup_set_user_other. congruence.
  - intro Hnone. unfold remove_product.
    destruct (lookup user_id ps) as [[|b l]|] eqn:Hl; try reflexivity.
    rewrite (pop_first_none alert_id (b :: l) (Hnone _ eq_refl)). reflexivity.
Qed.

(** ** C8: alert ids *)

(** The ids of a user's alerts in the document. *)
Definition ids_of (ps : products) (user_id : string) : list string :=
  match lookup user_id ps with Some l => map aid l | None => [] end.

Definition sample_details : product_details :=
  {| pd_name := "Phone"; pd_price := 1200; pd_url := "";
     pd_image := None |}%string.

Definition sample_url : string := "https://www.flipkart.com/phone/p/itm1?pid=MOBABC&lid=1".

Definition sample_args : list string := [sample_url; "1000"%string].

Definition sample_alert : alert :=
  {| aid := "MOBABC"; name := "Phone"; url := sample_url;
     current_price := 1200; target_price := 1000; added_on := 0 |}%string.

(** The same product added twice by user ["7"] (the target ["1000"] is
    ASCII, so the database plays no part). *)
Definition twice_added : products :=
  match add_product sample_interp [] "7" sample_args (fun _ => Some sample_details) 0 with
  | (_, Some ps1) =>
      match add_product sample_interp ps1 "7" sample_args (fun _ => Some sample_details) 1 with
      | (_, Some ps2) => ps2
      | (_, None) => ps1
      end
  | (_, None) => []
  end%string.

(** C8 (counterexample): ids are not unique within a user's list: adding
    the same product URL twice gives two alerts with the id ["MOBABC"]. *)
Lemma add_product_duplicate_ids :
  ids_of twice_added "7"%string = ["MOBABC"; "MOBABC"]%string /\
  ~ NoDup (ids_of twice_added "7"%string).
Proof.
  assert (E : ids_of twice_added "7"%string = ["MOBABC"; "MOBABC"]%string)
    by reflexivity.
  split; [exact E|]. rewrite E.
  intro H. inversion H as [|x l Hx _]. apply Hx. now left.
Qed.

(** C8 (amended): when [add] writes the document, the caller's list is the
    old list (empty if the caller had none) with one alert appended, whose
    id is the [pid] query value of the URL when the pattern [pid=([^&]+)]
    matches and otherwise the decimal length of the old list; other users'
    lists are unchanged.  No check keeps ids unique. *)
Theorem add_product_appends_id (I : interp) (ps : products) (user_id : string)
    (args : list string) (fetch : string -> option product_details) (now : Z)
    (reply : add_reply) (ps' : products)
    (H : add_product I ps user_id args fetch now = (reply, Some ps')) :
  let old := match lookup user_id ps with Some l => l | None => [] end in
  exists u tp rest a,
    args = u :: tp :: rest /\
    lookup user_id ps' = Some (old ++ [a]) /\
    aid a = match extract_product_id u with
            | Some p => p
            | None => string_of_nat (length old)
            end /\
    url a = u /\
    (forall v, v <> user_id -> lookup v ps' = lookup v ps).
Proof.
  intro old. unfold add_product in H.
  destruct args as [|u [|tp rest]]; try discriminate.
  destruct (parse_int I tp) as [target|]; [|discriminate].
  destruct (negb (contains "flipkart.com" u)); [discriminate|].
  destruct (fetch u) as [pd|]; [|discriminate].
  injection H as _ <-.
  eexists u, tp, rest, _. split; [reflexivity|].
  split; [apply lookup_set_user_same|].
  split; [reflexivity|]. split; [reflexivity|].
  intros v Hv. apply lookup_set_user_other. congruence.
Qed.

(** The amended C8 at a concrete call. *)
Lemma add_product_appends_id_witness :
  add_product sample_interp [] "7"%string sample_args (fun _ => Some sample_details) 0
    = (AddAdded "Phone"%string 1200 1000, Some [("7"%string, [sample_alert])]) /\
  let old := @nil alert in
  exists u tp rest a,
    sample_args = u :: tp :: rest /\
    lookup "7"%string [("7"%string, [sample_alert])] = Some (old ++ [a]) /\
    aid a = match extract_product_id u with
            | Some p => p
            | None => string_of_nat (length old)
            end /\
    url a = u /\
    (forall v, v <> "7"%string -> lookup v [("7"%string, [sample_alert])] = lookup v []).
Proof.
  split; [reflexivity|].
  apply (add_product_appends_id sample_interp [] "7"%string sample_args
           (fun _ => Some sample_details) 0 (AddAdded "Phone"%string 1200 1000)).
  reflexivity.
Defined.

(** ** Lemmas on the scan cycle *)

Section CycleFacts.

Variable fetch : string -> option product_details.

Lemma check_alerts_spec (l : list alert) :
  check_alerts fetch l =
    (map (fun a => fst (check_alert fetch a)) l,
     flat_map (fun a => opt_list (snd (check_alert fetch a))) l,
     map (fun a => EvFetch (url a)) l).
Proof.
  induction l as [|a l IH]; simpl; [reflexivity|].
  destruct (check_alert fetch a) as [a' n]. rewrite IH. reflexivity.
Qed.

Lemma count_saves_app (t1 t2 : list event) :
  count_saves (t1 ++ t2) = (count_saves t1 + count_saves t2)%nat.
Proof. unfold count_saves. now rewrite filter_app, length_app. Qed.

Lemma notif_count_app (t1 t2 : list event) :
  notif_count (t1 ++ t2) = (notif_count t1 + notif_count t2)%nat.
Proof.
  induction t1 as [|e t1 IH]; simpl; [reflexivity|].
  unfold notif_count in *. rewrite IH. destruct e; lia.
Qed.

Lemma fetch_events_quiet (l : list alert) :
  count_saves (map (fun a => EvFetch (url a)) l) = 0%nat /\
  notif_count (map (fun a => EvFetch (url a)) l) = 0%nat.
Proof. induction l as [|a l IH]; simpl; [split; reflexivity | exact IH]. Qed.

Variable deliver : string -> list update_info -> bool.

(** One user step appends fetches and at most one send, and raises
    [updates_found] exactly when it sends a non-empty message. *)
Lemma check_user_trace (st : cycle_state) (v : string) :
  exists ext,
    cs_trace (check_user fetch deliver st v) = cs_trace st ++ ext /\
    count_saves ext = 0%nat /\
    cs_updates_found (check_user fetch deliver st v) =
      cs_updates_found st || (0 <? notif_count ext)%nat.
Proof.
  unfold check_user.
  destruct (lookup v (cs_products st)) as [l|].
  2: { exists []. rewrite app_nil_r, orb_false_r. repeat split. }
  rewrite check_alerts_spec.
  destruct (fetch_events_quiet l) as [Hs Hn].
  destruct (flat_map _ l) as [|n ns] eqn:E; simpl.
  - eexists. split; [reflexivity|]. rewrite Hs, Hn. split; [reflexivity|].
    now rewrite orb_false_r.
  - eexists. split; [reflexivity|].
    rewrite count_saves_app, notif_count_app, Hs, Hn. simpl.
    split; [reflexivity|]. now rewrite orb_true_r.
Qed.

Lemma fold_check_user_trace (us : list string) (st : cycle_state) :
  exists ext,
    cs_trace (fold_left (check_user fetch deliver) us st) = cs_trace st ++ ext /\
    count_saves ext = 0%nat /\
    cs_updates_found (fold_left (check_user fetch deliver) us st) =
      cs_updates_found st || (0 <? notif_count ext)%nat.
Proof.
  revert st. induction us as [|v us IH]; intro st; simpl.
  - exists []. rewrite app_nil_r, orb_false_r. repeat split.
  - destruct (check_user_trace st v) as (e1 & H1 & S1 & F1).
    destruct (IH (check_user fetch deliver st v)) as (e2 & H2 & S2 & F2).
    exists (e1 ++ e2). rewrite H2, H1, app_assoc.
    split; [reflexivity|]. rewrite count_saves_app, S1, S2. split; [reflexivity|].
    rewrite F2, F1, notif_count_app, <- orb_assoc. f_equal.
    destruct (notif_count e1), (notif_count e2); reflexivity.
Qed.

(** The in-memory document after the user loop: every checked user's list
    is the list with [check_alert] applied to each alert; other users are
    unchanged. *)
Lemma fold_check_user_products (us : list string) (st : cycle_state) :
  NoDup us ->
  forall v, lookup v (cs_products (fold_left (check_user fetch deliver) us st)) =
    if in_dec String.string_dec v us
    then option_map (map (fun a => fst (check_alert fetch a))) (lookup v (cs_products st))
    else lookup v (cs_products st).
Proof.
  intro Hnd. revert st. induction Hnd as [|w us Hw Hnd IH]; intros st v; cbn [fold_left]; [reflexivity|].
  rewrite IH.
  assert (Hstep : lookup v (cs_products (check_user fetch deliver st w)) =
            if String.eqb w v
            then option_map (map (fun a => fst (check_alert fetch a))) (lookup v (cs_products st))
            else lookup v (cs_products st)).
  { unfold check_user.
    destruct (lookup w (cs_products st)) as [l|] eqn:Hl.
    - rewrite check_alerts_spec.
      destruct (flat_map _ l); simpl; rewrite lookup_set_user;
        destruct (String.eqb w v) eqn:E; try reflexivity;
        apply String.eqb_eq in E; subst; now rewrite Hl.
    - destruct (String.eqb w v) eqn:E; [|reflexivity].
      apply String.eqb_eq in E; subst. now rewrite Hl. }
  rewrite Hstep.
  destruct (String.eqb w v) eqn:E.
  - apply String.eqb_eq in E; subst w.
    destruct (in_dec String.string_dec v us) as [Hin|_]; [contradiction|].
    destruct (in_dec String.string_dec v (v :: us)) as [_|Hnin];
      [reflexivity | exfalso; apply Hnin; now left].
  - apply String.eqb_neq in E.
    destruct (in_dec String.string_dec v us) as [Hin|Hnin];
      destruct (in_dec String.string_dec v (w :: us)) as [Hin'|Hnin'].
    + reflexivity.
    + exfalso. apply Hnin'. now right.
    + destruct Hin' as [Heq|Hin']; [now destruct E | contradiction].
    + reflexivity.
Qed.

End CycleFacts.

Section DeliveryFacts.

Variable fetch : string -> option product_details.
Variables deliver1 deliver2 : string -> list update_info -> bool.

(** The user loop does not look at the delivery outcome: two runs that
    differ only in which sends fail agree on everything else. *)
Lemma fold_check_user_deliver (us : list string) (st1 st2 : cycle_state) :
  cs_products st1 = cs_products st2 ->
  cs_updates_found st1 = cs_updates_found st2 ->
  map erase_delivery (cs_trace st1) = map erase_delivery (cs_trace st2) ->
  let st1' := fold_left (check_user fetch deliver1) us st1 in
  let st2' := fold_left (check_user fetch deliver2) us st2 in
  cs_products st1' = cs_products st2' /\
  cs_updates_found st1' = cs_updates_found st2' /\
  map erase_delivery (cs_trace st1') = map erase_delivery (cs_trace st2').
Proof.
  revert st1 st2. induction us as [|v us IH]; intros st1 st2 Hp Hf Ht; simpl.
  - auto.
  - apply IH; unfold check_user; rewrite <- Hp;
      destruct (lookup v (cs_products st1)) as [l|]; try assumption;
      destruct (check_alerts fetch l) as [[l' ups] tr];
      destruct ups; simpl; try reflexivity; try assumption;
      rewrite !map_app, Ht; reflexivity.
Qed.

End DeliveryFacts.

(** The cycle as a whole: the trace is the loop's trace, followed by one
    save exactly when some notification was produced. *)
Lemma check_all_prices_shape (fetch : string -> option product_details)
    (deliver : string -> list update_info -> bool) (ps : products)
    (specific_users : option (list string)) :
  exists ext,
    count_saves ext = 0%nat /\
    forall saving,
      let r := check_all_prices fetch deliver saving ps specific_users in
      (notif_count ext = 0%nat /\ cr_trace r = ext /\ cr_store r = Doc ps /\
       cr_return r = Some false) \/
      ((1 <= notif_count ext)%nat /\
       cr_trace r = ext ++ [EvSave (cr_memory r) saving] /\
       cr_store r = file_after_save saving ps (cr_memory r)).
Proof.
  destruct (fold_check_user_trace fetch deliver (users_to_check specific_users ps)
              (mkState ps false [])) as (ext & Ht & Hs & Hf).
  simpl in Ht, Hf. exists ext. split; [exact Hs|].
  intro saving. unfold check_all_prices. cbv zeta.
  rewrite Hf, Ht.
  destruct (notif_count ext) as [|k] eqn:E; simpl.
  - left. repeat split.
  - right. split; [lia|]. split; reflexivity.
Qed.

(** ** C1: the crossing rule *)

Example crossing_fires :
  snd (check_alert (fun _ => Some (mkDetails "P"%string 950 ""%string None))
         (mkAlert "1" "P" "u" 1200 1000 0)%string)
  = Some (mkUpdate "P" 1200 950 1000 "u")%string.
Proof. reflexivity. Qed.

Example crossing_already_below :
  snd (check_alert (fun _ => Some (mkDetails "P"%string 850 ""%string None))
         (mkAlert "1" "P" "u" 900 1000 0)%string) = None.
Proof. reflexivity. Qed.

Example crossing_old_at_target :
  snd (check_alert (fun _ => Some (mkDetails "P"%string 1000 ""%string None))
         (mkAlert "1" "P" "u" 1000 1000 0)%string) = None.
Proof. reflexivity. Qed.

Example crossing_still_above :
  snd (check_alert (fun _ => Some (mkDetails "P"%string 1200 ""%string None))
         (mkAlert "1" "P" "u" 1200 1000 0)%string) = None.
Proof. reflexivity. Qed.

(** C1: for an alert whose fetch succeeds with snapshot [pd], the loop
    body produces a notification iff [pd]'s price is at or below the target
    and the alert's price before the fetch is strictly above it; the
    notifications of a user's loop are exactly those of its alerts, in
    stored order. *)
Theorem crossing_rule (fetch : string -> option product_details) (a : alert)
    (pd : product_details) (Hf : fetch (url a) = Some pd) :
  ((exists n, snd (check_alert fetch a) = Some n) <->
     (pd_price pd <= target_price a /\ target_price a < current_price a)) /\
  (forall l, snd (fst (check_alerts fetch l)) =
               flat_map (fun b => opt_list (snd (check_alert fetch b))) l).
Proof.
  split.
  - unfold check_alert. rewrite Hf.
    destruct (pd_price pd <=? target_price a) eqn:E1;
      destruct (target_price a <? current_price a) eqn:E2; simpl.
    all: rewrite ?Z.leb_le, ?Z.leb_gt, ?Z.ltb_lt, ?Z.ltb_ge in *.
    all: split; [intros [n Hn]; try discriminate; lia | intros [H1 H2]; try lia; eauto].
  - intro l. now rewrite check_alerts_spec.
Qed.

Lemma crossing_rule_witness :
  let f := fun _ : string => Some (mkDetails "P"%string 950 ""%string None) in
  let a := mkAlert "1"%string "P"%string "u"%string 1200 1000 0 in
  f (url a) = Some (mkDetails "P"%string 950 ""%string None) /\
  (((exists n, snd (check_alert f a) = Some n) <->
     (950 <= target_price a /\ target_price a < current_price a)) /\
   (forall l, snd (fst (check_alerts f l)) =
                flat_map (fun b => opt_list (snd (check_alert f b))) l)).
Proof.
  intros f a. split; [reflexivity|].
  exact (crossing_rule f a (mkDetails "P"%string 950 ""%string None) eq_refl).
Defined.

(** ** C2: notifications and the save *)

Definition crossing_doc : products :=
  [("u1"%string, [mkAlert "1" "P" "u" 1200 1000 0]%string)].

Definition crossing_fetch : string -> option product_details :=
  fun _ => Some (mkDetails "P"%string 950 ""%string None).

(** C2 (counterexample): with one crossing and a save that raises, the
    cycle has already attempted the user's notification when the save
    fails, whether [open] raises (the file keeps the loaded document) or
    the write raises after truncating the file. *)
Lemma notify_before_failed_save :
  let r1 := check_all_prices crossing_fetch (fun _ _ => true) OpenFailed crossing_doc None in
  let r2 := check_all_prices crossing_fetch (fun _ _ => true) WriteFailed crossing_doc None in
  (existsb is_send (cr_trace r1) = true /\ cr_store r1 = Doc crossing_doc /\
   cr_return r1 = None) /\
  (existsb is_send (cr_trace r2) = true /\ cr_store r2 = Broken /\ cr_return r2 = None).
Proof. repeat split. Qed.

(** C2 (amended): every notification attempt of a cycle is made inside the
    user loop, before the single end-of-cycle save; the attempts do not
    depend on whether that save succeeds, so a failing save comes after all
    of them. *)
Theorem sends_before_save (fetch : string -> option product_details)
    (deliver : string -> list update_info -> bool) (ps : products)
    (specific_users : option (list string)) :
  exists ext,
    count_saves ext = 0%nat /\
    forall saving,
      cr_trace (check_all_prices fetch deliver saving ps specific_users) = ext \/
      cr_trace (check_all_prices fetch deliver saving ps specific_users) =
        ext ++ [EvSave (cr_memory (check_all_prices fetch deliver saving ps specific_users))
                  saving].
Proof.
  destruct (check_all_prices_shape fetch deliver ps specific_users) as (ext & Hs & H).
  exists ext. split; [exact Hs|]. intro saving.
  destruct (H saving) as [(_ & Ht & _) | (_ & Ht & _)]; [left | right]; exact Ht.
Qed.

(** ** C3: one save per cycle *)

(** C3: when a cycle produces at least one notification, its trace has
    exactly one save, and it is the last event, after every fetch and
    send. *)
Theorem single_save_per_cycle (fetch : string -> option product_details)
    (deliver : string -> list update_info -> bool) (saving : save_outcome) (ps : products)
    (specific_users : option (list string)) :
  let r := check_all_prices fetch deliver saving ps specific_users in
  (1 <= notif_count (cr_trace r))%nat ->
  count_saves (cr_trace r) = 1%nat /\
  exists pre, cr_trace r = pre ++ [EvSave (cr_memory r) saving] /\ count_saves pre = 0%nat.
Proof.
  intros r Hm.
  destruct (check_all_prices_shape fetch deliver ps specific_users) as (ext & Hs & H).
  destruct (H saving) as [(Hn & Ht & _) | (_ & Ht & _)]; fold r in Ht.
  - rewrite Ht, Hn in Hm. lia.
  - rewrite Ht, count_saves_app, Hs. split; [reflexivity|].
    exists ext. split; [reflexivity | exact Hs].
Qed.

Lemma single_save_per_cycle_witness :
  let r := check_all_prices crossing_fetch (fun _ _ => true) Saved crossing_doc None in
  (1 <= notif_count (cr_trace r))%nat /\
  (count_saves (cr_trace r) = 1%nat /\
   exists pre, cr_trace r = pre ++ [EvSave (cr_memory r) Saved] /\ count_saves pre = 0%nat).
Proof.
  intro r. assert (Hm : (1 <= notif_count (cr_trace r))%nat) by (vm_compute; lia).
  split; [exact Hm|].
  exact (single_save_per_cycle crossing_fetch (fun _ _ => true) Saved crossing_doc None Hm).
Defined.

(** ** C4: fetch failures are isolated *)

(** C4: an alert whose fetch fails is left exactly as it was and yields no
    notification; and in the in-memory document after the cycle every
    alert of every checked user has gone through the loop body on its own,
    so a failure of one alert does not stop the others. *)
Theorem fetch_failure_isolated (fetch : string -> option product_details)
    (deliver : string -> list update_info -> bool) (saving : save_outcome) (ps : products)
    (specific_users : option (list string))
    (Hnd : NoDup (users_to_check specific_users ps)) :
  (forall a, fetch (url a) = None -> check_alert fetch a = (a, None)) /\
  (forall v l, In v (users_to_check specific_users ps) -> lookup v ps = Some l ->
     lookup v (cr_memory (check_all_prices fetch deliver saving ps specific_users)) =
       Some (map (fun a => fst (check_alert fetch a)) l)).
Proof.
  split.
  - intros a Ha. unfold check_alert. now rewrite Ha.
  - intros v l Hin Hl.
    assert (E : cr_memory (check_all_prices fetch deliver saving ps specific_users) =
                cs_products (fold_left (check_user fetch deliver)
                               (users_to_check specific_users ps) (mkState ps false []))).
    { unfold check_all_prices. destruct (cs_updates_found _); reflexivity. }
    rewrite E, (fold_check_user_products fetch deliver _ _ Hnd v). simpl.
    destruct (in_dec String.string_dec v (users_to_check specific_users ps)); [|contradiction].
    now rewrite Hl.
Qed.

Definition two_alert_doc : products :=
  [("u1"%string, [mkAlert "A" "PA" "ua" 500 400 0; mkAlert "B" "PB" "ub" 1200 1000 0]%string)].

Definition fail_a_fetch : string -> option product_details :=
  fun u => if String.eqb u "ua" then None else Some (mkDetails "PB"%string 950 "ub"%string None).

Lemma fetch_failure_isolated_witness :
  NoDup (users_to_check None two_alert_doc) /\
  ((forall a, fail_a_fetch (url a) = None -> check_alert fail_a_fetch a = (a, None)) /\
   (forall v l, In v (users_to_check None two_alert_doc) -> lookup v two_alert_doc = Some l ->
      lookup v (cr_memory (check_all_prices fail_a_fetch (fun _ _ => true) Saved two_alert_doc None)) =
        Some (map (fun a => fst (check_alert fail_a_fetch a)) l))).
Proof.
  assert (Hnd : NoDup (users_to_check None two_alert_doc)).
  { simpl. constructor; [intros []|constructor]. }
  split; [exact Hnd|].
  exact (fetch_failure_isolated fail_a_fetch (fun _ _ => true) Saved two_alert_doc None Hnd).
Defined.

(** With alert A failing and alert B crossing, B is still updated and its
    notification is sent. *)
Example fetch_failure_other_alert_notified :
  cr_trace (check_all_prices fail_a_fetch (fun _ _ => true) Saved two_alert_doc None)
  = [EvFetch "ua"; EvFetch "ub";
     EvSend "u1" [mkUpdate "PB" 1200 950 1000 "ub"] true;
     EvSave [("u1", [mkAlert "A" "PA" "ua" 500 400 0; mkAlert "B" "PB" "ub" 950 1000 0])] Saved]%string.
Proof. reflexivity. Qed.

(** ** C5: what a successful fetch overwrites *)

(** C5 (counterexample): a successful fetch whose snapshot has a new name
    leaves the alert's name as it was. *)
Lemma success_keeps_old_name :
  let f := fun _ : string => Some (mkDetails "New"%string 1500 ""%string None) in
  let a := mkAlert "1"%string "Old"%string "u"%string 1200 1000 0 in
  name (fst (check_alert f a)) = "Old"%string /\
  name (fst (check_alert f a)) <> pd_name (mkDetails "New"%string 1500 ""%string None).
Proof. split; [reflexivity | discriminate]. Qed.

(** C5 (amended): after a successful fetch the alert's current price is
    the snapshot's price, whether or not it crossed, and every other field,
    the name included, is unchanged; a notification for the alert carries
    the alert's stored (old) name, not the snapshot's. *)
Theorem success_overwrites_price_only (fetch : string -> option product_details) (a : alert)
    (pd : product_details) (Hf : fetch (url a) = Some pd) :
  fst (check_alert fetch a) =
    {| aid := aid a; name := name a; url := url a; current_price := pd_price pd;
       target_price := target_price a; added_on := added_on a |} /\
  (forall n, snd (check_alert fetch a) = Some n -> u_name n = name a).
Proof.
  unfold check_alert. rewrite Hf.
  destruct ((pd_price pd <=? target_price a) && (target_price a <? current_price a)).
  - split; [reflexivity|]. intros n Hn. injection Hn as <-. reflexivity.
  - split; [reflexivity|]. discriminate.
Qed.

(** A crossing whose snapshot has a new name: the stored alert and the
    notification both keep the name ["Old"]. *)
Lemma success_overwrites_price_only_witness :
  let f := fun _ : string => Some (mkDetails "New"%string 950 ""%string None) in
  let a := mkAlert "1"%string "Old"%string "u"%string 1200 1000 0 in
  snd (check_alert f a) = Some (mkUpdate "Old" 1200 950 1000 "u")%string /\
  f (url a) = Some (mkDetails "New"%string 950 ""%string None) /\
  (fst (check_alert f a) =
     {| aid := aid a; name := name a; url := url a; current_price := 950;
        target_price := target_price a; added_on := added_on a |} /\
   (forall n, snd (check_alert f a) = Some n -> u_name n = name a)).
Proof.
  intros f a. split; [reflexivity|]. split; [reflexivity|].
  exact (success_overwrites_price_only f a (mkDetails "New"%string 950 ""%string None) eq_refl).
Defined.

(** ** C9: cycles without notifications write nothing *)

(** C9: when a cycle produces no notification, it makes no save and the
    data file is the document it loaded, whatever prices the fetches
    brought into memory. *)
Theorem no_notification_no_save (fetch : string -> option product_details)
    (deliver : string -> list update_info -> bool) (saving : save_outcome) (ps : products)
    (specific_users : option (list string)) :
  let r := check_all_prices fetch deliver saving ps specific_users in
  notif_count (cr_trace r) = 0%nat ->
  count_saves (cr_trace r) = 0%nat /\ cr_store r = Doc ps /\ cr_return r = Some false.
Proof.
  intros r Hm.
  destruct (check_all_prices_shape fetch deliver ps specific_users) as (ext & Hs & H).
  destruct (H saving) as [(_ & Ht & Hst & Hr) | (Hn & Ht & _)]; fold r in Ht.
  - rewrite Ht. auto.
  - rewrite Ht, notif_count_app in Hm. simpl in Hm. lia.
Qed.

Definition price_moved_doc : products :=
  [("u1"%string, [mkAlert "1" "P" "u" 1200 1000 0]%string)].

Definition price_moved_fetch : string -> option product_details :=
  fun _ => Some (mkDetails "P"%string 1100 ""%string None).

(** A price move with no crossing: the new price is in memory only. *)
Lemma no_notification_no_save_witness :
  let r := check_all_prices price_moved_fetch (fun _ _ => true) Saved price_moved_doc None in
  cr_memory r <> price_moved_doc /\
  notif_count (cr_trace r) = 0%nat /\
  (count_saves (cr_trace r) = 0%nat /\ cr_store r = Doc price_moved_doc /\
   cr_return r = Some false).
Proof.
  intro r. split; [vm_compute; discriminate|].
  assert (Hm : notif_count (cr_trace r) = 0%nat) by reflexivity.
  split; [exact Hm|].
  exact (no_notification_no_save price_moved_fetch (fun _ _ => true) Saved price_moved_doc None Hm).
Defined.

(** ** C10: failed deliveries *)

(** C10: which deliveries fail changes nothing else in a cycle: the same
    fetches and send attempts happen for every user, the same document is
    kept in memory and written; when the write succeeds after at least one
    notification, the file holds the updated prices, including those of
    crossings whose message was lost; and an alert updated by a crossing
    has its price at or below target, so the next cycle cannot report a
    crossing for it, whatever that cycle fetches. *)
Theorem delivery_failure_isolated (fetch : string -> option product_details)
    (deliver1 deliver2 : string -> list update_info -> bool) (saving : save_outcome)
    (ps : products) (specific_users : option (list string)) :
  let r1 := check_all_prices fetch deliver1 saving ps specific_users in
  let r2 := check_all_prices fetch deliver2 saving ps specific_users in
  map erase_delivery (cr_trace r1) = map erase_delivery (cr_trace r2) /\
  cr_memory r1 = cr_memory r2 /\ cr_store r1 = cr_store r2 /\
  (saving = Saved -> (1 <= notif_count (cr_trace r1))%nat -> cr_store r1 = Doc (cr_memory r1)) /\
  (forall a a' n, check_alert fetch a = (a', Some n) ->
     target_price a' = target_price a /\ current_price a' <= target_price a' /\
     forall fetch', snd (check_alert fetch' a') = None).
Proof.
  intros r1 r2.
  destruct (fold_check_user_deliver fetch deliver1 deliver2 (users_to_check specific_users ps)
              (mkState ps false []) (mkState ps false []) eq_refl eq_refl eq_refl)
    as (Hp & Hf & Ht).
  assert (Hsame : map erase_delivery (cr_trace r1) = map erase_delivery (cr_trace r2) /\
                  cr_memory r1 = cr_memory r2 /\ cr_store r1 = cr_store r2).
  { unfold r1, r2, check_all_prices. revert Hp Hf Ht.
    generalize (fold_left (check_user fetch deliver1) (users_to_check specific_users ps)
                  (mkState ps false [])) as s1.
    generalize (fold_left (check_user fetch deliver2) (users_to_check specific_users ps)
                  (mkState ps false [])) as s2.
    intros s2 s1 Hp Hf Ht. rewrite Hf.
    destruct (cs_updates_found s2); cbn [cr_trace cr_memory cr_store];
      rewrite ?map_app, Ht, Hp; auto. }
  destruct Hsame as (H1 & H2 & H3).
  split; [exact H1|]. split; [exact H2|]. split; [exact H3|]. split.
  - intros Hok Hm.
    destruct (check_all_prices_shape fetch deliver1 ps specific_users) as (ext & Hs & H).
    destruct (H saving) as [(Hn & Ht1 & _) | (_ & _ & Hst)].
    + fold r1 in Ht1. rewrite Ht1, Hn in Hm. lia.
    + fold r1 in Hst. rewrite Hst, Hok. reflexivity.
  - intros a a' n Hc. unfold check_alert in Hc.
    destruct (fetch (url a)) as [pd|]; [|discriminate].
    destruct ((pd_price pd <=? target_price a) && (target_price a <? current_price a)) eqn:E;
      [|discriminate].
    injection Hc as <- _. simpl.
    apply andb_true_iff in E as [E _]. apply Z.leb_le in E.
    split; [reflexivity|]. split; [exact E|].
    intro fetch'. unfold check_alert. simpl.
    destruct (fetch' (url a)); [|reflexivity].
    destruct (target_price a <? pd_price pd) eqn:E2.
    + apply Z.ltb_lt in E2. lia.
    + now rewrite andb_false_r.
Qed.

(** * Further properties of the code *)

(** ** [extract_product_id] *)

Lemma substring_0_all (m : nat) (s : string) :
  (String.length s <= m)%nat -> substring 0 m s = s.
Proof.
  revert m. induction s as [|c s IH]; intros m Hm; simpl.
  - destruct m; reflexivity.
  - destruct m as [|m]; [simpl in Hm; lia|].
    simpl in Hm. rewrite IH; [reflexivity | lia].
Qed.

Lemma prefix_split (p s : string) (m : nat) :
  String.prefix p s = true -> (String.length s <= m)%nat ->
  s = (p ++ substring (String.length p) m s)%string.
Proof.
  revert s. induction p as [|a p IH]; intros s H Hm; simpl.
  - now rewrite substring_0_all.
  - destruct s as [|b s]; simpl in H; [discriminate|].
    destruct (ascii_dec a b) as [<-|]; [|discriminate].
    simpl in Hm.
    assert (E : substring (S (String.length p)) m (String a s) =
                substring (String.length p) m s) by (destruct m; reflexivity).
    rewrite E, <- (IH s H); [reflexivity | lia].
Qed.

Lemma prefix_pid (s : string) :
  String.prefix "pid=" s = true ->
  s = ("pid=" ++ substring 4 (String.length s) s)%string.
Proof. intro H. exact (prefix_split "pid=" s _ H (le_n _)). Qed.

Lemma take_until_amp_split (s : string) :
  (forall c, In c (list_ascii_of_string (take_until_amp s)) -> c <> "&"%char) /\
  exists post, s = (take_until_amp s ++ post)%string /\
               (post = EmptyString \/ exists r, post = String "&" r).
Proof.
  induction s as [|c s (IHa & post & IHs & IHp)]; simpl.
  - split; [intros _ []|]. exists EmptyString. split; [reflexivity | now left].
  - destruct (Ascii.eqb c "&") eqn:E.
    + apply Ascii.eqb_eq in E. subst c. split; [intros _ []|].
      exists (String "&" s). split; [reflexivity | right; eauto].
    + apply Ascii.eqb_neq in E. split.
      * intros d [<-|Hd]; [exact E | exact (IHa d Hd)].
      * exists post. split; [simpl; now rewrite <- IHs | exact IHp].
Qed.

(** The value [extract_product_id] returns is a non-empty run without
    ['&'] that follows ["pid="] in the URL, ended by the end of the URL or
    by an ['&']. *)
Theorem extract_product_id_sound (s g : string) (H : extract_product_id s = Some g) :
  g <> EmptyString /\
  (forall c, In c (list_ascii_of_string g) -> c <> "&"%char) /\
  exists pre post,
    s = (pre ++ "pid=" ++ g ++ post)%string /\
    (post = EmptyString \/ exists r, post = String "&" r).
Proof.
  revert g H. induction s as [|c s IH]; intros g H; [discriminate|].
  cbn [extract_product_id] in H.
  destruct (String.prefix "pid=" (String c s)) eqn:Hp.
  - destruct (take_until_amp (substring 4 (String.length (String c s)) (String c s)))
      as [|c0 g0] eqn:Ht.
    + destruct (IH g H) as (Hne & Ha & pre & post & Hs & Hpost).
      split; [exact Hne|]. split; [exact Ha|].
      exists (String c pre), post. split; [rewrite Hs at 1; reflexivity | exact Hpost].
    + injection H as <-. split; [discriminate|].
      destruct (take_until_amp_split (substring 4 (String.length (String c s)) (String c s)))
        as (Ha & post & Hs & Hpost).
      rewrite Ht in Ha, Hs. split; [exact Ha|].
      exists EmptyString, post. split; [|exact Hpost].
      transitivity ("pid=" ++ substring 4 (String.length (String c s)) (String c s))%string;
        [exact (prefix_pid _ Hp) | rewrite Hs; reflexivity].
  - destruct (IH g H) as (Hne & Ha & pre & post & Hs & Hpost).
    split; [exact Hne|]. split; [exact Ha|].
    exists (String c pre), post. split; [rewrite Hs at 1; reflexivity | exact Hpost].
Qed.

Lemma extract_product_id_sound_witness :
  extract_product_id sample_url = Some "MOBABC"%string /\
  ("MOBABC"%string <> EmptyString /\
   (forall c, In c (list_ascii_of_string "MOBABC") -> c <> "&"%char) /\
   exists pre post,
     sample_url = (pre ++ "pid=" ++ "MOBABC" ++ post)%string /\
     (post = EmptyString \/ exists r, post = String "&" r)).
Proof.
  assert (H : extract_product_id sample_url = Some "MOBABC"%string) by reflexivity.
  split; [exact H|]. exact (extract_product_id_sound _ _ H).
Defined.

(** ** [add_product] *)

Lemma add_product_success (I : interp) (ps : products) (user_id : string) (args : list string)
    (fetch : string -> option product_details) (now : Z) (reply : add_reply) (ps' : products) :
  add_product I ps user_id args fetch now = (reply, Some ps') ->
  let old := match lookup user_id ps with Some l => l | None => [] end in
  exists u tp rest target pd,
    args = u :: tp :: rest /\ parse_int I tp = Some target /\
    contains "flipkart.com" u = true /\ fetch u = Some pd /\
    reply = AddAdded (pd_name pd) (pd_price pd) target /\
    ps' = set_user user_id
            (old ++ [{| aid := match extract_product_id u with
                               | Some p => p
                               | None => string_of_nat (length old)
                               end;
                        name := pd_name pd; url := u; current_price := pd_price pd;
                        target_price := target; added_on := now |}]) ps.
Proof.
  intros H old. unfold add_product in H.
  destruct args as [|u [|tp rest]]; try discriminate.
  destruct (parse_int I tp) as [target|] eqn:Hp; [|discriminate].
  destruct (contains "flipkart.com" u) eqn:Hc; simpl in H; [|discriminate].
  destruct (fetch u) as [pd|] eqn:Hf; [|discriminate].
  injection H as <- <-.
  exists u, tp, rest, target, pd. repeat split; assumption.
Qed.

(** [add] writes the document exactly when it replies that the alert was
    added.  The reply then shows the name and price of the snapshot fetched
    for the URL argument and the target parsed from the price argument; the
    caller's list is the old one (empty for a new caller) with one alert
    appended that stores that name, price and target, the URL and the time;
    other users' lists are unchanged. *)
Theorem add_product_saves_iff_added (I : interp) (ps : products) (user_id : string)
    (args : list string) (fetch : string -> option product_details) (now : Z) :
  ((exists ps', snd (add_product I ps user_id args fetch now) = Some ps') <->
   (exists n c t, fst (add_product I ps user_id args fetch now) = AddAdded n c t)) /\
  (forall n c t ps', add_product I ps user_id args fetch now = (AddAdded n c t, Some ps') ->
     let old := match lookup user_id ps with Some l => l | None => [] end in
     exists u tp rest pd a,
       args = u :: tp :: rest /\ fetch u = Some pd /\ parse_int I tp = Some t /\
       n = pd_name pd /\ c = pd_price pd /\
       lookup user_id ps' = Some (old ++ [a]) /\
       name a = pd_name pd /\ url a = u /\ current_price a = pd_price pd /\
       target_price a = t /\ added_on a = now /\
       (forall v, v <> user_id -> lookup v ps' = lookup v ps)).
Proof.
  split.
  - unfold add_product.
    destruct args as [|u [|tp rest]]; simpl;
      try (split; [intros [ps' H]; discriminate | intros (n & c & t & H); discriminate]).
    destruct (parse_int I tp) as [target|]; simpl;
      [|split; [intros [ps' H]; discriminate | intros (n & c & t & H); discriminate]].
    destruct (contains "flipkart.com" u); simpl;
      [|split; [intros [ps' H]; discriminate | intros (n & c & t & H); discriminate]].
    destruct (fetch u) as [pd|]; simpl;
      [|split; [intros [ps' H]; discriminate | intros (n & c & t & H); discriminate]].
    split; intros _; eauto.
  - intros n c t ps' H old.
    destruct (add_product_success I ps user_id args fetch now _ ps' H)
      as (u & tp & rest & target & pd & Ha & Hp & _ & Hf & Hr & Hps).
    injection Hr as -> -> ->. fold old in Hps. subst ps'.
    eexists u, tp, rest, pd, _.
    split; [exact Ha|]. split; [exact Hf|]. split; [exact Hp|].
    split; [reflexivity|]. split; [reflexivity|].
    split; [apply lookup_set_user_same|].
    do 5 (split; [reflexivity|]).
    intros v Hv. apply lookup_set_user_other. congruence.
Qed.

Lemma remove_product_popped (ps : products) (user_id alert_id : string) (rest : list string)
    (l : list alert) (x : alert) (l' : list alert) :
  lookup user_id ps = Some l -> pop_first alert_id l = Some (x, l') ->
  remove_product ps user_id (alert_id :: rest) = (RemoveDone (name x), Some (set_user user_id l' ps)).
Proof.
  intros Hl Hp. unfold remove_product. rewrite Hl.
  destruct l as [|b l]; [discriminate|]. now rewrite Hp.
Qed.

(** Adding an alert and then removing it by its new id gives back the
    caller's previous list (an empty list for a new caller), as long as no
    earlier alert of the caller has that id; other users are untouched. *)
Theorem add_then_remove (I : interp) (ps : products) (user_id u tp : string)
    (rest : list string) (fetch : string -> option product_details) (now : Z)
    (reply : add_reply) (ps1 : products)
    (H : add_product I ps user_id (u :: tp :: rest) fetch now = (reply, Some ps1))
    (Hfresh : Forall (fun b => aid b <> match extract_product_id u with
                                        | Some p => p
                                        | None => string_of_nat
                                                    (length (match lookup user_id ps with
                                                             | Some l => l | None => [] end))
                                        end)
                     (match lookup user_id ps with Some l => l | None => [] end)) :
  let old := match lookup user_id ps with Some l => l | None => [] end in
  let new_id := match extract_product_id u with
                | Some p => p
                | None => string_of_nat (length old)
                end in
  exists removed ps2,
    remove_product ps1 user_id [new_id] = (RemoveDone removed, Some ps2) /\
    lookup user_id ps2 = Some old /\
    (forall v, v <> user_id -> lookup v ps2 = lookup v ps).
Proof.
  intros old new_id.
  destruct (add_product_success I ps user_id _ fetch now reply ps1 H)
    as (u' & tp' & rest' & target & pd & Ha & _ & _ & _ & _ & Hps).
  injection Ha as <- <- <-. fold old in Hps. subst ps1.
  assert (Hp := pop_first_split new_id old []
                  {| aid := new_id; name := pd_name pd; url := u; current_price := pd_price pd;
                     target_price := target; added_on := now |} Hfresh eq_refl).
  rewrite app_nil_r in Hp.
  eexists _, _. rewrite (remove_product_popped _ _ _ [] _ _ _ (lookup_set_user_same _ _ _) Hp).
  split; [reflexivity|].
  split; [apply lookup_set_user_same|].
  intros v Hv. rewrite !lookup_set_user_other; congruence.
Qed.

(** User ["7"] already has an alert for another product, and user ["8"]
    has one too. *)
Definition earlier_alert : alert :=
  mkAlert "MOBOLD" "Tablet" "https://www.flipkart.com/tab/p/itm2?pid=MOBOLD" 3000 2500 0.

Definition other_user_alert : alert :=
  mkAlert "WATCH1" "Watch" "https://www.flipkart.com/w/p/itm3?pid=WATCH1" 800 700 0.

Definition two_user_doc : products :=
  [("7"%string, [earlier_alert]); ("8"%string, [other_user_alert])].

Lemma add_then_remove_witness :
  add_product sample_interp two_user_doc "7"%string sample_args (fun _ => Some sample_details) 0
    = (AddAdded "Phone"%string 1200 1000,
       Some [("7"%string, [earlier_alert; sample_alert]); ("8"%string, [other_user_alert])]) /\
  Forall (fun b => aid b <> "MOBABC"%string) [earlier_alert] /\
  exists removed ps2,
    remove_product [("7"%string, [earlier_alert; sample_alert]); ("8"%string, [other_user_alert])]
      "7"%string ["MOBABC"%string] = (RemoveDone removed, Some ps2) /\
    lookup "7"%string ps2 = Some [earlier_alert] /\
    (forall v, v <> "7"%string -> lookup v ps2 = lookup v two_user_doc).
Proof.
  assert (H : add_product sample_interp two_user_doc "7"%string sample_args
                (fun _ => Some sample_details) 0
              = (AddAdded "Phone"%string 1200 1000,
                 Some [("7"%string, [earlier_alert; sample_alert]);
                       ("8"%string, [other_user_alert])])) by reflexivity.
  assert (Hfresh : Forall (fun b => aid b <> "MOBABC"%string) [earlier_alert]).
  { constructor; [unfold earlier_alert; simpl; discriminate | constructor]. }
  split; [exact H|]. split; [exact Hfresh|].
  exact (add_then_remove sample_interp two_user_doc "7"%string sample_url "1000"%string [] _ 0
           _ _ H Hfresh).
Defined.

(** ** [get_product_details] and the crossing rule *)

Lemma filter_all_false (f : Z -> bool) (l : list Z) :
  Forall (fun c => f c = false) l -> filter f l = [].
Proof. induction 1 as [|c l Hc _ IH]; simpl; [reflexivity|]. now rewrite Hc. Qed.

(** A price text with no character that [str.isdigit] accepts (for
    instance an "out of stock" label) makes the fetch fail, even when the
    name is present. *)
Theorem get_product_details_no_digits (I : interp) (u : string) (soup : page)
    (price_text : string) (Hp : sel_price soup = Some price_text)
    (Hd : Forall (fun c => py_isdigit I c = false) (utf8_decode price_text)) :
  get_product_details I u (Some soup) = None.
Proof.
  unfold get_product_details. rewrite Hp.
  destruct (match sel_name soup with Some t => Some t | None => sel_name_h1 soup end);
    [|reflexivity].
  cbv zeta. rewrite filter_all_false; [reflexivity|].
  apply str_strip_Forall, Hd.
Qed.

Lemma get_product_details_no_digits_witness :
  let soup := mkPage (Some "Phone"%string) None (Some "Sold out"%string) None in
  sel_price soup = Some "Sold out"%string /\
  Forall (fun c => py_isdigit sample_interp c = false) (utf8_decode "Sold out") /\
  get_product_details sample_interp "u"%string (Some soup) = None.
Proof.
  intro soup. split; [reflexivity|].
  assert (Hd : Forall (fun c => py_isdigit sample_interp c = false) (utf8_decode "Sold out"))
    by (vm_compute; repeat constructor).
  split; [exact Hd|].
  exact (get_product_details_no_digits sample_interp "u"%string soup "Sold out"%string
           eq_refl Hd).
Defined.

(** [add] accepts a negative target price ([int('-1')] is [-1], and [add]
    stores whatever target [int] gives); an alert with a negative target
    never produces a notification when prices come from
    [get_product_details], whose prices are never negative. *)
Theorem negative_target_never_fires (I : interp) (HI : interp_ok I)
    (response : string -> option page) :
  let fetch := fun u => get_product_details I u (response u) in
  parse_int I "-1" = Some (-1) /\
  (forall ps user_id u tp rest now target pd,
     parse_int I tp = Some target -> contains "flipkart.com" u = true -> fetch u = Some pd ->
     exists ps', add_product I ps user_id (u :: tp :: rest) fetch now =
                   (AddAdded (pd_name pd) (pd_price pd) target, Some ps') /\
       exists l a, lookup user_id ps' = Some (l ++ [a]) /\ target_price a = target) /\
  (forall a, target_price a < 0 -> snd (check_alert fetch a) = None).
Proof.
  intro fetch. split; [reflexivity|]. split.
  - intros ps user_id u tp rest now target pd Hp Hc Hf.
    unfold add_product. rewrite Hp, Hc, Hf. cbn [negb].
    eexists. split; [reflexivity|].
    eexists _, _. split; [apply lookup_set_user_same | reflexivity].
  - intros a Hneg. unfold check_alert.
    destruct (fetch (url a)) as [pd|] eqn:E; [|reflexivity].
    destruct (get_product_details_some I HI _ _ pd E)
      as (_ & _ & _ & _ & _ & _ & _ & _ & _ & Hnn & _).
    destruct (pd_price pd <=? target_price a) eqn:E1; [|reflexivity].
    apply Z.leb_le in E1. lia.
Qed.

Definition zero_price_page : page :=
  mkPage (Some "P"%string) None (Some "0"%string) None.

Lemma negative_target_never_fires_witness :
  interp_ok sample_interp /\
  add_product sample_interp [] "7"%string [sample_url; "-1"%string]
    (fun u => get_product_details sample_interp u (Some zero_price_page)) 0
  = (AddAdded "P"%string 0 (-1),
     Some [("7"%string, [mkAlert "MOBABC" "P" sample_url 0 (-1) 0]%string)]) /\
  (let fetch := fun u => get_product_details sample_interp u (Some zero_price_page) in
   parse_int sample_interp "-1" = Some (-1) /\
   (forall ps user_id u tp rest now target pd,
      parse_int sample_interp tp = Some target -> contains "flipkart.com" u = true ->
      fetch u = Some pd ->
      exists ps', add_product sample_interp ps user_id (u :: tp :: rest) fetch now =
                    (AddAdded (pd_name pd) (pd_price pd) target, Some ps') /\
        exists l a, lookup user_id ps' = Some (l ++ [a]) /\ target_price a = target) /\
   (forall a, target_price a < 0 -> snd (check_alert fetch a) = None)).
Proof.
  split; [exact sample_interp_ok|]. split; [vm_compute; reflexivity|].
  exact (negative_target_never_fires sample_interp sample_interp_ok
           (fun _ => Some zero_price_page)).
Defined.

(** ** The scan cycle: structure, untouched users, repeated cycles *)

(** Two alerts that agree on every key but ['current_price']. *)
Definition same_but_price (a b : alert) : Prop :=
  aid a = aid b /\ name a = name b /\ url a = url b /\
  target_price a = target_price b /\ added_on a = added_on b.

(** Both users absent, or both lists of the same length with alerts that
    agree position by position on every key but ['current_price']. *)
Definition same_lists (o1 o2 : option (list alert)) : Prop :=
  match o1, o2 with
  | None, None => True
  | Some l1, Some l2 => Forall2 same_but_price l1 l2
  | _, _ => False
  end.

Lemma check_alert_fields (fetch : string -> option product_details) (a : alert) :
  same_but_price a (fst (check_alert fetch a)).
Proof.
  unfold check_alert, same_but_price.
  destruct (fetch (url a)) as [pd|]; [|repeat split].
  destruct (_ && _); repeat split.
Qed.

(** A second run of the loop body with the same fetch results never
    reports a crossing. *)
Lemma check_alert_quiet_after (fetch : string -> option product_details) (a : alert) :
  snd (check_alert fetch (fst (check_alert fetch a))) = None.
Proof.
  unfold check_alert.
  destruct (fetch (url a)) as [pd|] eqn:E; simpl; [|rewrite E; reflexivity].
  destruct ((pd_price pd <=? target_price a) && (target_price a <? current_price a));
    simpl; rewrite E; simpl;
    destruct (pd_price pd <=? target_price a) eqn:E1; simpl; try reflexivity;
    destruct (target_price a <? pd_price pd) eqn:E2; try reflexivity;
    apply Z.leb_le in E1; apply Z.ltb_lt in E2; lia.
Qed.

Lemma Forall2_same_trans (l1 l2 : list alert) (f : alert -> alert) :
  Forall2 same_but_price l1 l2 -> (forall a, same_but_price a (f a)) ->
  Forall2 same_but_price l1 (map f l2).
Proof.
  intros H Hf. induction H as [|a b l1 l2 Hab H IH]; simpl; constructor; [|exact IH].
  destruct Hab as (E1 & E2 & E3 & E4 & E5). destruct (Hf b) as (F1 & F2 & F3 & F4 & F5).
  repeat split; congruence.
Qed.

Lemma Forall2_same_refl (l : list alert) : Forall2 same_but_price l l.
Proof. induction l; constructor; [repeat split | assumption]. Qed.

Lemma set_user_keys (u : string) (l l' : list alert) (ps : products) :
  lookup u ps = Some l -> map fst (set_user u l' ps) = map fst ps.
Proof.
  induction ps as [|[w l0] ps IH]; simpl; [discriminate|].
  destruct (String.eqb w u); intro H; simpl; [reflexivity|]. now rewrite IH.
Qed.

Section CycleStructure.

Variable fetch : string -> option product_details.
Variable deliver : string -> list update_info -> bool.

Lemma fold_check_user_structure (us : list string) (ps0 : products) (st : cycle_state) :
  map fst (cs_products st) = map fst ps0 ->
  (forall v, same_lists (lookup v ps0) (lookup v (cs_products st))) ->
  map fst (cs_products (fold_left (check_user fetch deliver) us st)) = map fst ps0 /\
  (forall v, same_lists (lookup v ps0)
               (lookup v (cs_products (fold_left (check_user fetch deliver) us st)))).
Proof.
  revert st. induction us as [|w us IH]; intros st Hk Hs; simpl; [auto|].
  apply IH.
  - unfold check_user. destruct (lookup w (cs_products st)) as [l|] eqn:Hl; [|exact Hk].
    destruct (check_alerts fetch l) as [[l' ups] tr].
    destruct ups; simpl; rewrite (set_user_keys _ l); assumption.
  - intro v. unfold check_user.
    destruct (lookup w (cs_products st)) as [l|] eqn:Hl; [|apply Hs].
    rewrite check_alerts_spec.
    destruct (flat_map _ l); simpl; rewrite lookup_set_user;
      destruct (String.eqb w v) eqn:E; try apply Hs;
      apply String.eqb_eq in E; subst w; specialize (Hs v); rewrite Hl in Hs;
      destruct (lookup v ps0); try contradiction;
      apply Forall2_same_trans; [exact Hs | apply check_alert_fields | exact Hs | apply check_alert_fields].
Qed.

Lemma fold_check_user_other (us : list string) (st : cycle_state) (v : string) :
  ~ In v us ->
  lookup v (cs_products (fold_left (check_user fetch deliver) us st)) = lookup v (cs_products st).
Proof.
  revert st. induction us as [|w us IH]; intros st Hv; simpl; [reflexivity|].
  rewrite IH; [|intro H; apply Hv; now right].
  unfold check_user. destruct (lookup w (cs_products st)) as [l|]; [|reflexivity].
  destruct (check_alerts fetch l) as [[l' ups] tr].
  assert (w <> v) by (intro; apply Hv; now left).
  destruct ups; simpl; now apply lookup_set_user_other.
Qed.

End CycleStructure.

Lemma check_all_prices_memory (fetch : string -> option product_details)
    (deliver : string -> list update_info -> bool) (saving : save_outcome) (ps : products)
    (specific_users : option (list string)) :
  cr_memory (check_all_prices fetch deliver saving ps specific_users) =
  cs_products (fold_left (check_user fetch deliver) (users_to_check specific_users ps)
                 (mkState ps false [])).
Proof. unfold check_all_prices. destruct (cs_updates_found _); reflexivity. Qed.

Lemma check_all_prices_store (fetch : string -> option product_details)
    (deliver : string -> list update_info -> bool) (saving : save_outcome) (ps : products)
    (specific_users : option (list string)) (ps' : products) :
  cr_store (check_all_prices fetch deliver saving ps specific_users) = Doc ps' ->
  ps' = ps \/ ps' = cr_memory (check_all_prices fetch deliver saving ps specific_users).
Proof.
  unfold check_all_prices. destruct (cs_updates_found _); simpl.
  - destruct saving; simpl; intro H;
      [injection H as <-; now right | injection H as <-; now left | discriminate].
  - intro H. injection H as <-. now left.
Qed.

(** A cycle keeps the shape of the document: the document it keeps in
    memory, and any document it leaves in the data file, has the same users
    in the same order, and each user's alerts, in the same number and order,
    differ from the loaded ones at most in ['current_price']. *)
Theorem check_all_prices_keeps_structure (fetch : string -> option product_details)
    (deliver : string -> list update_info -> bool) (saving : save_outcome) (ps : products)
    (specific_users : option (list string)) :
  let r := check_all_prices fetch deliver saving ps specific_users in
  forall ps', ps' = cr_memory r \/ cr_store r = Doc ps' ->
  map fst ps' = map fst ps /\ (forall v, same_lists (lookup v ps) (lookup v ps')).
Proof.
  intros r.
  assert (Hm : map fst (cr_memory r) = map fst ps /\
               (forall v, same_lists (lookup v ps) (lookup v (cr_memory r)))).
  { unfold r. rewrite check_all_prices_memory.
    apply fold_check_user_structure; [reflexivity|].
    intro v. simpl. destruct (lookup v ps); [apply Forall2_same_refl | exact I]. }
  intros ps' [Hps | Hs]; [rewrite Hps; exact Hm|].
  destruct (check_all_prices_store _ _ _ _ _ ps' Hs) as [Hps | Hps]; rewrite Hps; [|exact Hm].
  split; [reflexivity|]. intro v. unfold same_lists.
  destruct (lookup v ps); [apply Forall2_same_refl | exact I].
Qed.

(** Users outside the checked list (for [/check], everybody but the caller)
    keep their alerts exactly, in memory and in the data file. *)
Theorem check_all_prices_other_users (fetch : string -> option product_details)
    (deliver : string -> list update_info -> bool) (saving : save_outcome) (ps : products)
    (specific_users : option (list string)) (v : string)
    (Hv : ~ In v (users_to_check specific_users ps)) :
  let r := check_all_prices fetch deliver saving ps specific_users in
  lookup v (cr_memory r) = lookup v ps /\
  (forall ps', cr_store r = Doc ps' -> lookup v ps' = lookup v ps).
Proof.
  intro r.
  assert (Hm : lookup v (cr_memory r) = lookup v ps).
  { unfold r. rewrite check_all_prices_memory. now apply fold_check_user_other. }
  split; [exact Hm|].
  intros ps' Hs. destruct (check_all_prices_store _ _ _ _ _ ps' Hs) as [Hps | Hps];
    rewrite Hps; [reflexivity | exact Hm].
Qed.

(** A second user ["u2"] whose alert would cross if it were checked. *)
Definition quiet_user_doc : products :=
  crossing_doc ++ [("u2"%string, [mkAlert "2" "Q" "u" 1200 1000 0]%string)].

Lemma check_all_prices_other_users_witness :
  ~ In "u2"%string (users_to_check (Some ["u1"%string]) quiet_user_doc) /\
  lookup "u2"%string (cr_memory (check_all_prices crossing_fetch (fun _ _ => true) Saved
                                   quiet_user_doc None))
    <> lookup "u2"%string quiet_user_doc /\
  let r := check_all_prices crossing_fetch (fun _ _ => true) Saved quiet_user_doc
             (Some ["u1"%string]) in
  cr_store r = Doc (cr_memory r) /\ cr_memory r <> quiet_user_doc /\
  (lookup "u2"%string (cr_memory r) = lookup "u2"%string quiet_user_doc /\
   (forall ps', cr_store r = Doc ps' ->
      lookup "u2"%string ps' = lookup "u2"%string quiet_user_doc)).
Proof.
  assert (Hv : ~ In "u2"%string (users_to_check (Some ["u1"%string]) quiet_user_doc)).
  { simpl. intros [H|[]]. discriminate. }
  split; [exact Hv|]. split; [vm_compute; discriminate|].
  intro r. split; [reflexivity|]. split; [vm_compute; discriminate|].
  exact (check_all_prices_other_users crossing_fetch (fun _ _ => true) Saved _ _ _ Hv).
Defined.

Section CycleQuiet.

Variable fetch : string -> option product_details.
Variable deliver : string -> list update_info -> bool.

Lemma fold_check_user_absent (us : list string) (st : cycle_state) :
  (forall v, In v us -> lookup v (cs_products st) = None) ->
  fold_left (check_user fetch deliver) us st = st.
Proof.
  revert st. induction us as [|w us IH]; intros st H; simpl; [reflexivity|].
  unfold check_user at 2. rewrite (H w (or_introl eq_refl)).
  apply IH. intros v Hv. apply H. now right.
Qed.

(** When every alert of every user still to be checked is quiet (its
    loop body reports nothing), the rest of the loop sends nothing. *)
Lemma fold_check_user_quiet (us : list string) (st : cycle_state) :
  (forall v l, In v us -> lookup v (cs_products st) = Some l ->
     Forall (fun a => snd (check_alert fetch a) = None) l) ->
  cs_updates_found (fold_left (check_user fetch deliver) us st) = cs_updates_found st.
Proof.
  revert st. induction us as [|w us IH]; intros st H; simpl; [reflexivity|].
  rewrite IH.
  - unfold check_user. destruct (lookup w (cs_products st)) as [l|] eqn:Hl; [|reflexivity].
    rewrite check_alerts_spec.
    assert (E : flat_map (fun a => opt_list (snd (check_alert fetch a))) l = []).
    { specialize (H w l (or_introl eq_refl) Hl). clear Hl.
      induction H as [|a l Ha _ IHl]; simpl; [reflexivity|]. now rewrite Ha, IHl. }
    rewrite E. reflexivity.
  - intros v l Hv Hl. unfold check_user in Hl.
    destruct (lookup w (cs_products st)) as [l0|] eqn:Hl0; [|exact (H v l (or_intror Hv) Hl)].
    rewrite check_alerts_spec in Hl.
    destruct (flat_map _ l0); simpl in Hl; rewrite lookup_set_user in Hl;
      (destruct (String.eqb w v); [injection Hl as <-|exact (H v l (or_intror Hv) Hl)]);
      apply Forall_forall; intros a Ha; apply in_map_iff in Ha as (b & <- & _);
      apply check_alert_quiet_after.
Qed.

End CycleQuiet.

(** [/check] by a user who has no alerts, and more generally a cycle none
    of whose users to check has alerts in the document, does nothing: no
    fetch, no message, no save, and returns [False]. *)
Theorem check_all_prices_nobody (fetch : string -> option product_details)
    (deliver : string -> list update_info -> bool) (saving : save_outcome) (ps : products)
    (specific_users : option (list string))
    (H : forall v, In v (users_to_check specific_users ps) -> lookup v ps = None) :
  check_all_prices fetch deliver saving ps specific_users = mkResult [] ps (Doc ps) (Some false).
Proof.
  unfold check_all_prices. rewrite fold_check_user_absent; [reflexivity|exact H].
Qed.

Lemma check_all_prices_nobody_witness :
  (forall v, In v (users_to_check (Some ["9"%string]) crossing_doc) -> lookup v crossing_doc = None) /\
  check_all_prices crossing_fetch (fun _ _ => true) Saved crossing_doc (Some ["9"%string])
    = mkResult [] crossing_doc (Doc crossing_doc) (Some false).
Proof.
  assert (H : forall v, In v (users_to_check (Some ["9"%string]) crossing_doc) ->
                        lookup v crossing_doc = None).
  { simpl. intros v [<-|[]]. reflexivity. }
  split; [exact H|]. exact (check_all_prices_nobody _ _ _ _ _ H).
Defined.

Lemma notif_count_erase (t : list event) :
  notif_count (map erase_delivery t) = notif_count t.
Proof.
  induction t as [|e t IH]; [reflexivity|].
  unfold notif_count in *. cbn [map fold_right]. rewrite IH. destruct e; reflexivity.
Qed.

Lemma check_all_prices_notif (fetch : string -> option product_details)
    (deliver : string -> list update_info -> bool) (saving : save_outcome) (ps : products)
    (specific_users : option (list string)) :
  notif_count (cr_trace (check_all_prices fetch deliver saving ps specific_users)) =
  notif_count (cs_trace (fold_left (check_user fetch deliver) (users_to_check specific_users ps)
                           (mkState ps false []))).
Proof.
  assert (Z0 : forall p o, notif_count [EvSave p o] = 0%nat) by reflexivity.
  unfold check_all_prices. destruct (cs_updates_found _); cbn [cr_trace]; [|reflexivity].
  rewrite notif_count_app, Z0. lia.
Qed.

(** If the cycle returns normally, running it again over the document it
    left in the data file, with the same fetch results, sends no message
    and writes nothing.  If instead the save raised at [open], after some
    notification, the data file still holds the loaded document, so a
    re-run over it sends as many notifications again. *)
Theorem check_all_prices_repeat_quiet (fetch : string -> option product_details)
    (deliver deliver' : string -> list update_info -> bool) (saving saving' : save_outcome)
    (ps : products) (specific_users : option (list string))
    (Hnd : NoDup (users_to_check specific_users ps)) :
  let r1 := check_all_prices fetch deliver saving ps specific_users in
  (forall ps2, cr_return r1 <> None -> cr_store r1 = Doc ps2 ->
     let r2 := check_all_prices fetch deliver' saving' ps2 specific_users in
     notif_count (cr_trace r2) = 0%nat /\ count_saves (cr_trace r2) = 0%nat /\
     cr_store r2 = Doc ps2) /\
  (saving = OpenFailed -> (1 <= notif_count (cr_trace r1))%nat ->
     cr_store r1 = Doc ps /\ cr_return r1 = None /\
     notif_count (cr_trace (check_all_prices fetch deliver' saving' ps specific_users)) =
       notif_count (cr_trace r1)).
Proof.
  intro r1. split.
  - intros ps2 Hret Hs r2.
    assert (Hq : cs_updates_found (fold_left (check_user fetch deliver')
                   (users_to_check specific_users ps2) (mkState ps2 false [])) = false).
    { destruct (fold_check_user_structure fetch deliver (users_to_check specific_users ps) ps
                  (mkState ps false []) eq_refl
                  (fun v => match lookup v ps as o return same_lists o o with
                            | Some l => Forall2_same_refl l | None => I end)) as [Hk _].
      unfold r1, check_all_prices in Hs, Hret. cbv zeta in Hs, Hret.
      destruct (cs_updates_found (fold_left (check_user fetch deliver)
                  (users_to_check specific_users ps) (mkState ps false []))) eqn:Hf.
      - destruct saving; cbn [cr_store cr_return file_after_save] in Hs, Hret;
          [| now destruct Hret | discriminate].
        injection Hs as <-.
        assert (Hus : users_to_check specific_users
                        (cs_products (fold_left (check_user fetch deliver)
                           (users_to_check specific_users ps) (mkState ps false [])))
                      = users_to_check specific_users ps).
        { unfold users_to_check. destruct specific_users as [[|x xs]|]; try reflexivity;
            exact Hk. }
        rewrite Hus. apply fold_check_user_quiet. simpl.
        intros v l Hv Hl.
        rewrite (fold_check_user_products fetch deliver _ _ Hnd v) in Hl. simpl in Hl.
        destruct (in_dec String.string_dec v (users_to_check specific_users ps)); [|contradiction].
        destruct (lookup v ps); simpl in Hl; [|discriminate]. injection Hl as <-.
        apply Forall_forall. intros a Ha. apply in_map_iff in Ha as (b & <- & _).
        apply check_alert_quiet_after.
      - simpl in Hs. injection Hs as <-.
        destruct (fold_check_user_deliver fetch deliver deliver' (users_to_check specific_users ps)
                    (mkState ps false []) (mkState ps false []) eq_refl eq_refl eq_refl)
          as (_ & Hf' & _).
        simpl in Hf'. congruence. }
    destruct (fold_check_user_trace fetch deliver' (users_to_check specific_users ps2)
                (mkState ps2 false [])) as (ext & Ht & Hsv & Hf2).
    simpl in Ht, Hf2. rewrite Hq in Hf2.
    unfold r2, check_all_prices. cbv zeta. rewrite Hq. simpl. rewrite Ht.
    split; [destruct (notif_count ext); [reflexivity | discriminate] |].
    split; [exact Hsv | reflexivity].
  - intros Hsv Hm. subst saving.
    destruct (fold_check_user_trace fetch deliver (users_to_check specific_users ps)
                (mkState ps false [])) as (ext & Ht & _ & Hf).
    cbn [cs_trace cs_updates_found] in Ht, Hf.
    assert (Hn : notif_count (cr_trace r1) = notif_count ext).
    { unfold r1. rewrite check_all_prices_notif, Ht. reflexivity. }
    assert (Hfound : cs_updates_found (fold_left (check_user fetch deliver)
                       (users_to_check specific_users ps) (mkState ps false [])) = true).
    { rewrite Hf. rewrite Hn in Hm. destruct (notif_count ext); [lia | reflexivity]. }
    split; [unfold r1, check_all_prices; cbv zeta; rewrite Hfound; reflexivity|].
    split; [unfold r1, check_all_prices; cbv zeta; rewrite Hfound; reflexivity|].
    unfold r1. rewrite !check_all_prices_notif.
    destruct (fold_check_user_deliver fetch deliver' deliver (users_to_check specific_users ps)
                (mkState ps false []) (mkState ps false []) eq_refl eq_refl eq_refl)
      as (_ & _ & Ht').
    rewrite <- (notif_count_erase (cs_trace (fold_left (check_user fetch deliver') _ _))).
    rewrite Ht'. apply notif_count_erase.
Qed.

(** The document after one crossing of [crossing_doc]. *)
Definition crossed_doc : products :=
  [("u1"%string, [mkAlert "1" "P" "u" 950 1000 0]%string)].

Lemma check_all_prices_repeat_quiet_witness :
  NoDup (users_to_check None crossing_doc) /\
  cr_store (check_all_prices crossing_fetch (fun _ _ => true) Saved crossing_doc None)
    = Doc crossed_doc /\
  cr_return (check_all_prices crossing_fetch (fun _ _ => true) Saved crossing_doc None)
    = Some true /\
  notif_count (cr_trace (check_all_prices crossing_fetch (fun _ _ => true) OpenFailed
                           crossing_doc None)) = 1%nat /\
  (let r1 := check_all_prices crossing_fetch (fun _ _ => true) Saved crossing_doc None in
   (forall ps2, cr_return r1 <> None -> cr_store r1 = Doc ps2 ->
      let r2 := check_all_prices crossing_fetch (fun _ _ => false) Saved ps2 None in
      notif_count (cr_trace r2) = 0%nat /\ count_saves (cr_trace r2) = 0%nat /\
      cr_store r2 = Doc ps2) /\
   (Saved = OpenFailed -> (1 <= notif_count (cr_trace r1))%nat ->
      cr_store r1 = Doc crossing_doc /\ cr_return r1 = None /\
      notif_count (cr_trace (check_all_prices crossing_fetch (fun _ _ => false) Saved
                               crossing_doc None)) =
        notif_count (cr_trace r1))) /\
  (let r1 := check_all_prices crossing_fetch (fun _ _ => true) OpenFailed crossing_doc None in
   (forall ps2, cr_return r1 <> None -> cr_store r1 = Doc ps2 ->
      let r2 := check_all_prices crossing_fetch (fun _ _ => false) Saved ps2 None in
      notif_count (cr_trace r2) = 0%nat /\ count_saves (cr_trace r2) = 0%nat /\
      cr_store r2 = Doc ps2) /\
   (OpenFailed = OpenFailed -> (1 <= notif_count (cr_trace r1))%nat ->
      cr_store r1 = Doc crossing_doc /\ cr_return r1 = None /\
      notif_count (cr_trace (check_all_prices crossing_fetch (fun _ _ => false) Saved
                               crossing_doc None)) =
        notif_count (cr_trace r1))).
Proof.
  assert (Hnd : NoDup (users_to_check None crossing_doc)).
  { simpl. constructor; [intros []|constructor]. }
  split; [exact Hnd|]. split; [reflexivity|]. split; [reflexivity|]. split; [reflexivity|].
  split.
  - exact (check_all_prices_repeat_quiet crossing_fetch _ (fun _ _ => false) Saved Saved
             _ None Hnd).
  - exact (check_all_prices_repeat_quiet crossing_fetch _ (fun _ _ => false) OpenFailed Saved
             _ None Hnd).
Defined.

(** ** What [check_all_prices] returns *)

(** The cycle returns [False] exactly when it produced no notification; it
    returns [True] when it produced some and the write succeeded, and the
    exception of a failing write escapes it ([None]) only when it produced
    some. *)
Theorem check_all_prices_return (fetch : string -> option product_details)
    (deliver : string -> list update_info -> bool) (saving : save_outcome) (ps : products)
    (specific_users : option (list string)) :
  let r := check_all_prices fetch deliver saving ps specific_users in
  (cr_return r = Some false <-> notif_count (cr_trace r) = 0%nat) /\
  (cr_return r = Some true <-> (1 <= notif_count (cr_trace r))%nat /\ saving = Saved) /\
  (cr_return r = None <-> (1 <= notif_count (cr_trace r))%nat /\ saving <> Saved).
Proof.
  intro r.
  destruct (check_all_prices_shape fetch deliver ps specific_users) as (ext & _ & H).
  destruct (H saving) as [(Hn & Ht & _ & Hr) | (Hn & Ht & _)]; fold r in Ht.
  - fold r in Hr. rewrite Hr, Ht, Hn.
    split; [split; intros; reflexivity|].
    split; split; [discriminate | intros [Hc _]; lia | discriminate | intros [Hc _]; lia].
  - assert (Hr : cr_return r = match saving with Saved => Some true | _ => None end).
    { unfold r, check_all_prices. destruct (cs_updates_found _) eqn:Hf; [reflexivity|].
      exfalso. destruct (fold_check_user_trace fetch deliver (users_to_check specific_users ps)
                           (mkState ps false [])) as (ext' & Ht' & _ & Hf').
      simpl in Ht', Hf'. rewrite Hf in Hf'.
      unfold r, check_all_prices in Ht. rewrite Hf in Ht. simpl in Ht.
      rewrite Ht in Ht'. rewrite <- Ht', notif_count_app in Hf'. simpl in Hf'.
      destruct (notif_count ext) as [|k]; [lia | discriminate]. }
    rewrite Hr, Ht, notif_count_app. simpl. rewrite Nat.add_0_r.
    destruct saving.
    + split; [split; [discriminate | lia]|].
      split; split; [intros _; split; [lia | reflexivity] | intros _; reflexivity
                    | discriminate | intros [_ Hc]; now destruct Hc].
    + split; [split; [discriminate | lia]|].
      split; split; [discriminate | intros [_ Hc]; discriminate
                    | intros _; split; [lia | discriminate] | intros _; reflexivity].
    + split; [split; [discriminate | lia]|].
      split; split; [discriminate | intros [_ Hc]; discriminate
                    | intros _; split; [lia | discriminate] | intros _; reflexivity].
Qed.

Lemma check_all_prices_keeps_structure_witness :
  let r := check_all_prices crossing_fetch (fun _ _ => true) Saved crossing_doc None in
  (cr_memory r = cr_memory r \/ cr_store r = Doc (cr_memory r)) /\
  map fst (cr_memory r) = map fst crossing_doc /\
  (forall v, same_lists (lookup v crossing_doc) (lookup v (cr_memory r))).
Proof.
  intro r. assert (H : cr_memory r = cr_memory r \/ cr_store r = Doc (cr_memory r))
    by (left; reflexivity).
  split; [exact H|].
  exact (check_all_prices_keeps_structure crossing_fetch (fun _ _ => true) Saved crossing_doc None
           (cr_memory r) H).
Defined.
